(** * expenseCat: the ledger core of the expense tracker

    A shallow embedding of the service layer of the expense tracker
    (services.py), of the table constraints it relies on (models.py), of
    the scoped session of database.py and of the one computation the mails
    of email_service.py make, followed by the properties of the
    split allocator, the balance engine, the alert upsert and the budget
    alert evaluator. *)

From Stdlib Require Import ZArith QArith Qabs Floats List String Bool Lia.
From Stdlib Require Import Permutation.
Import ListNotations.

Local Open Scope Z_scope.

(** ** Python numbers

    Amounts are Python numbers (floats in the tables, ints for literals and
    counters).  The service code only adds, subtracts, multiplies, divides
    and compares them, so the model is written against that interface; it
    assumes no algebraic law, and the structural results below hold for
    IEEE doubles as well as for exact rationals. *)

Class Number (num : Type) : Type := {
  of_Z : Z -> num;               (* an int used where a number is expected *)
  add : num -> num -> num;
  sub : num -> num -> num;
  mul : num -> num -> num;
  div : num -> num -> num;       (* true division, divisor not zero *)
  is_zero : num -> bool;         (* [x == 0], the test behind ZeroDivisionError *)
  ltb : num -> num -> bool;      (* [x < y] *)
  leb : num -> num -> bool       (* [x <= y] *)
}.

(** Exact arithmetic. *)
#[export] Instance Q_Number : Number Q := {
  of_Z := inject_Z;
  add := Qplus;
  sub := Qminus;
  mul := Qmult;
  div := Qdiv;
  is_zero := fun x => Qeq_bool x 0;
  ltb := fun x y => negb (Qle_bool y x);
  leb := Qle_bool
}.

(** IEEE 754 binary64, the float of CPython. *)
Definition float_of_Z (z : Z) : float :=
  match z with
  | Z0 => PrimFloat.zero
  | Zpos _ => PrimFloat.of_uint63 (Uint63.of_Z z)
  | Zneg _ => PrimFloat.opp (PrimFloat.of_uint63 (Uint63.of_Z (- z)))
  end.

#[export] Instance float_Number : Number float := {
  of_Z := float_of_Z;
  add := PrimFloat.add;
  sub := PrimFloat.sub;
  mul := PrimFloat.mul;
  div := PrimFloat.div;
  is_zero := fun x => PrimFloat.eqb x PrimFloat.zero;
  ltb := PrimFloat.ltb;
  leb := PrimFloat.leb
}.

(** ** Exceptions *)

Inductive exn : Type :=
| ZeroDivisionError   (* division by zero *)
| IntegrityError      (* a table constraint rejected a row *)
| AttributeError.     (* attribute access on None *)

(** The autoincrement key of a table: one more than the largest key. *)
Definition next_id (ids : list Z) : Z := 1 + fold_right Z.max 0 ids.

(** [query.first()] *)
Definition query_first {A : Type} (l : list A) : option A :=
  match l with
  | [] => None
  | x :: _ => Some x
  end.

(** A query without ORDER BY returns its rows in the order of the index the
    database walks to answer it.  [order_by before l] lists [l] in that
    order; rows the index does not tell apart keep the order of [l]. *)
Fixpoint place {A : Type} (before : A -> A -> bool) (x : A) (l : list A)
  : list A :=
  match l with
  | [] => [x]
  | y :: l' => if before x y then x :: l else y :: place before x l'
  end.

Definition order_by {A : Type} (before : A -> A -> bool) (l : list A)
  : list A :=
  fold_right (place before) [] l.

(** Python truthiness of an optional int and of an optional string. *)
Definition truthy_id (o : option Z) : bool :=
  match o with
  | Some z => negb (z =? 0)
  | None => false
  end.

Definition truthy_str (o : option string) : bool :=
  match o with
  | Some s => negb (String.eqb s EmptyString)
  | None => false
  end.

Definition option_Z_eqb (a b : option Z) : bool :=
  match a, b with
  | Some x, Some y => x =? y
  | None, None => true
  | _, _ => false
  end.

Section Model.

Context {num : Type} {NUM : Number num}.

(** [x / n] with an int divisor. *)
Definition div_int (x : num) (n : Z) : exn + num :=
  if n =? 0 then inl ZeroDivisionError else inr (div x (of_Z n)).

(** [x / y] with a float divisor. *)
Definition div_num (x y : num) : exn + num :=
  if is_zero y then inl ZeroDivisionError else inr (div x y).

(** [sum(...)] from the left, starting at the int 0. *)
Definition sum_left (xs : list num) : num := fold_left add xs (of_Z 0).

(** ** The tables (models.py) *)

Record User : Type := {
  u_id : Z;
  u_username : string;
  u_email : string
}.

Record Category : Type := {
  c_id : Z;
  c_name : string
}.

Record Budget : Type := {
  b_id : Z;
  b_user_id : Z;
  b_category_id : Z;
  b_amount : num;
  b_month : Z;
  b_year : Z
}.

Record datetime : Type := {
  dt_year : Z;
  dt_month : Z
}.

Record Expense : Type := {
  e_id : Z;
  e_user_id : Z;
  e_category_id : Z;
  e_amount : num;
  e_date : datetime;
  e_group_id : option Z;
  e_is_shared : bool
}.

Record Group : Type := {
  g_id : Z;
  g_name : string;
  g_created_by : Z
}.

Record ExpenseSplit : Type := {
  s_id : Z;
  s_expense_id : Z;
  s_user_id : Z;
  s_amount : num;
  s_paid : bool
}.

Record Alert : Type := {
  a_id : Z;
  a_user_id : Z;
  a_category_id : option Z;
  a_threshold_percentage : Z;
  a_is_active : bool;
  a_email_notification : bool
}.

(** The database: one list of rows per table, in rowid order; [user_group]
    is the association table (user_id, group_id) behind [Group.members]. *)
Record Store : Type := {
  users : list User;
  categories : list Category;
  budgets : list Budget;
  expenses : list Expense;
  groups : list Group;
  user_group : list (Z * Z);
  expense_splits : list ExpenseSplit;
  alerts : list Alert
}.

(** ** Units of work

    A write the session holds until the next flush. *)
Inductive write : Type :=
| InsExpense (e : Expense)        (* session.add(Expense(...)) *)
| InsSplit (s : ExpenseSplit)     (* session.add(ExpenseSplit(...)) *)
| InsAlert (a : Alert)            (* session.add(Alert(...)) *)
| UpdAlert (a : Alert).           (* attributes of a loaded Alert were set *)

(** The CHECK constraints of the tables. *)
Definition check (w : write) : bool :=
  match w with
  | InsExpense e => ltb (of_Z 0) (e_amount e)          (* amount > 0 *)
  | InsSplit s => leb (of_Z 0) (s_amount s)            (* amount >= 0 *)
  | InsAlert a | UpdAlert a =>                         (* 0 <= threshold <= 100 *)
      (0 <=? a_threshold_percentage a) && (a_threshold_percentage a <=? 100)
  end.

Definition with_expenses (db : Store) (l : list Expense) : Store :=
  {| users := users db; categories := categories db; budgets := budgets db;
     expenses := l; groups := groups db; user_group := user_group db;
     expense_splits := expense_splits db; alerts := alerts db |}.

Definition with_splits (db : Store) (l : list ExpenseSplit) : Store :=
  {| users := users db; categories := categories db; budgets := budgets db;
     expenses := expenses db; groups := groups db; user_group := user_group db;
     expense_splits := l; alerts := alerts db |}.

Definition with_alerts (db : Store) (l : list Alert) : Store :=
  {| users := users db; categories := categories db; budgets := budgets db;
     expenses := expenses db; groups := groups db; user_group := user_group db;
     expense_splits := expense_splits db; alerts := l |}.

Definition set_expense_id (e : Expense) (i : Z) : Expense :=
  {| e_id := i; e_user_id := e_user_id e; e_category_id := e_category_id e;
     e_amount := e_amount e; e_date := e_date e; e_group_id := e_group_id e;
     e_is_shared := e_is_shared e |}.

Definition set_split_id (s : ExpenseSplit) (i : Z) : ExpenseSplit :=
  {| s_id := i; s_expense_id := s_expense_id s; s_user_id := s_user_id s;
     s_amount := s_amount s; s_paid := s_paid s |}.

Definition set_alert_id (a : Alert) (i : Z) : Alert :=
  {| a_id := i; a_user_id := a_user_id a; a_category_id := a_category_id a;
     a_threshold_percentage := a_threshold_percentage a;
     a_is_active := a_is_active a;
     a_email_notification := a_email_notification a |}.

(** UPDATE alerts SET ... WHERE id = a.id *)
Definition update_alert (a : Alert) (l : list Alert) : list Alert :=
  map (fun r => if a_id r =? a_id a then a else r) l.

(** The INSERT or UPDATE a write turns into; inserted rows get their key. *)
Definition apply_write (w : write) (db : Store) : Store :=
  match w with
  | InsExpense e =>
      with_expenses db
        (expenses db ++ [set_expense_id e (next_id (map e_id (expenses db)))])
  | InsSplit s =>
      with_splits db
        (expense_splits db
           ++ [set_split_id s (next_id (map s_id (expense_splits db)))])
  | InsAlert a =>
      with_alerts db
        (alerts db ++ [set_alert_id a (next_id (map a_id (alerts db)))])
  | UpdAlert a => with_alerts db (update_alert a (alerts db))
  end.

(** Emit the pending writes in order; the first rejected row aborts. *)
Fixpoint flush_writes (ws : list write) (db : Store) : exn + Store :=
  match ws with
  | [] => inr db
  | w :: ws' =>
      if check w then flush_writes ws' (apply_write w db)
      else inl IntegrityError
  end.

(** A session: the transaction's view of the database and the writes not
    yet flushed. *)
Record Session : Type := {
  view : Store;
  pending : list write
}.

(** Code running inside [with get_session() as session:] *)
Definition session (A : Type) : Type := Session -> exn + (A * Session).

Definition ret {A : Type} (a : A) : session A := fun s => inr (a, s).

Definition raise {A : Type} (e : exn) : session A := fun _ => inl e.

Definition bind {A B : Type} (m : session A) (k : A -> session B) : session B :=
  fun s =>
    match m s with
    | inl e => inl e
    | inr (a, s') => k a s'
    end.

Definition lift {A : Type} (r : exn + A) : session A :=
  match r with
  | inl e => raise e
  | inr a => ret a
  end.

(** session.add(obj) *)
Definition session_add (w : write) : session unit :=
  fun s => inr (tt, {| view := view s; pending := pending s ++ [w] |}).

(** Setting attributes of a loaded row marks it dirty: an UPDATE is due at
    the next flush. *)
Definition session_dirty (w : write) : session unit := session_add w.

(** session.flush() *)
Definition session_flush : session unit :=
  fun s =>
    match flush_writes (pending s) (view s) with
    | inl e => inl e
    | inr db => inr (tt, {| view := db; pending := [] |})
    end.

(** Read the transaction's view (a query). *)
Definition query {A : Type} (f : Store -> A) : session A :=
  fun s => inr (f (view s), s).

(** A [for] loop whose body may raise. *)
Fixpoint for_each {A : Type} (l : list A) (body : A -> session unit)
  : session unit :=
  match l with
  | [] => ret tt
  | x :: l' => bind (body x) (fun _ => for_each l' body)
  end.

End Model.

Notation "x <- m ;; k" := (bind m (fun x => k))
  (at level 61, m at next level, right associativity).
Notation "m ;;; k" := (bind m (fun _ => k))
  (at level 61, right associativity).

Section Service.

Context {num : Type} {NUM : Number num}.

(** ** database.py *)

(** session.commit() *)
Definition commit (s : @Session num) : exn + @Store num :=
  flush_writes (pending s) (view s).

(** [with get_session() as session: body]: commit when the body returns,
    roll back and re-raise when the body or the commit raises. *)
Definition get_session {A : Type} (body : session A) (db : @Store num)
  : (exn + A) * @Store num :=
  match body {| view := db; pending := [] |} with
  | inl e => (inl e, db)
  | inr (a, s) =>
      match commit s with
      | inl e => (inl e, db)
      | inr db' => (inr a, db')
      end
  end.

(** ** services.py: lookups *)

Definition get_category_by_name (name : string) (db : @Store num)
  : (exn + option Category) * @Store num :=
  get_session
    (query (fun v =>
       query_first (filter (fun c => String.eqb (c_name c) name) (categories v))))
    db.

(** [group.members]: the users joined to the group through [user_group],
    read through the primary key (user_id, group_id) of that table, hence
    by ascending user id. *)
Definition group_members (v : @Store num) (group_id : Z) : list User :=
  order_by (fun a b => u_id a <=? u_id b)
    (flat_map
       (fun r =>
          if snd r =? group_id
          then filter (fun u => u_id u =? fst r) (users v)
          else [])
       (user_group v)).

(** ** services.py: add_shared_expense *)

(** session.add(expense); session.flush(): the row as inserted, that is with
    the key the INSERT gives it. *)
Definition add_flush_expense (e : @Expense num) : session (@Expense num) :=
  i <- query (fun v => next_id (map e_id (expenses v))) ;;
  session_add (InsExpense e) ;;;
  session_flush ;;;
  ret (set_expense_id e i).

Definition new_split (expense_id member_id : Z) (amount : num) (user_id : Z)
  : @ExpenseSplit num :=
  {| s_id := 0; s_expense_id := expense_id; s_user_id := member_id;
     s_amount := amount; s_paid := member_id =? user_id |}.

(** What a split row holds besides its key. *)
Definition split_fields (s : @ExpenseSplit num) : Z * Z * num * bool :=
  (s_expense_id s, s_user_id s, s_amount s, s_paid s).

(** Truthiness of [custom_splits]: None and the empty dict are falsy. *)
Definition truthy_dict {A : Type} (o : option (list A)) : list A :=
  match o with
  | Some l => l
  | None => []
  end.

(** The rows of the two loops of add_shared_expense, in closed form. *)
Definition equal_rows (expense_id user_id : Z) (amount : num)
    (members : list User) : list (@ExpenseSplit num) :=
  map (fun member =>
         new_split expense_id (u_id member)
           (div amount (of_Z (Z.of_nat (List.length members)))) user_id)
    members.

Definition custom_rows (expense_id user_id : Z) (items : list (Z * num))
  : list (@ExpenseSplit num) :=
  map (fun item => new_split expense_id (fst item) (snd item) user_id) items.

Definition add_shared_expense_body
    (user_id group_id : Z) (category : Category) (amount : num)
    (now : datetime) (split_equally : bool)
    (custom_splits : option (list (Z * num)))
  : session (option (@Expense num)) :=
  group <- query (fun v =>
             query_first (filter (fun g => g_id g =? group_id) (groups v))) ;;
  match group with
  | None => ret None
  | Some group =>
      expense <- add_flush_expense
                   {| e_id := 0; e_user_id := user_id;
                      e_category_id := c_id category; e_amount := amount;
                      e_date := now; e_group_id := Some group_id;
                      e_is_shared := true |} ;;
      members <- query (fun v => group_members v (g_id group)) ;;
      let member_count := Z.of_nat (List.length members) in
      (if split_equally then
         split_amount <- lift (div_int amount member_count) ;;
         for_each members (fun member =>
           session_add
             (InsSplit (new_split (e_id expense) (u_id member) split_amount
                          user_id)))
       else
         for_each (truthy_dict custom_splits) (fun item =>
           session_add
             (InsSplit (new_split (e_id expense) (fst item) (snd item)
                          user_id)))) ;;;
      ret (Some expense)
  end.

(** The whole method: any exception ends in [return None]. *)
Definition add_shared_expense
    (user_id group_id : Z) (category_name : string) (amount : num)
    (now : datetime) (split_equally : bool)
    (custom_splits : option (list (Z * num))) (db : @Store num)
  : option (@Expense num) * @Store num :=
  match get_category_by_name category_name db with
  | (inl _, db1) => (None, db1)
  | (inr None, db1) => (None, db1)
  | (inr (Some category), db1) =>
      match get_session
              (add_shared_expense_body user_id group_id category amount now
                 split_equally custom_splits) db1 with
      | (inl _, db2) => (None, db2)
      | (inr r, db2) => (r, db2)
      end
  end.

(** The expense row as the flush inserts it. *)
Definition inserted_expense (user_id group_id : Z) (amount : num)
    (now : datetime) (category : Category) (db : @Store num) : @Expense num :=
  {| e_id := next_id (map e_id (expenses db)); e_user_id := user_id;
     e_category_id := c_id category; e_amount := amount; e_date := now;
     e_group_id := Some group_id; e_is_shared := true |}.

(** The two lookups of add_shared_expense. *)
Definition found_category (category_name : string) (db : @Store num)
  : option Category :=
  query_first
    (filter (fun c => String.eqb (c_name c) category_name) (categories db)).

Definition found_group (group_id : Z) (db : @Store num) : option Group :=
  query_first (filter (fun g => g_id g =? group_id) (groups db)).

(** The rows the method hands to the session. *)
Definition planned_rows (user_id group_id : Z) (amount : num) (now : datetime)
    (custom_splits : option (list (Z * num))) (split_equally : bool)
    (category : Category) (db : @Store num) : list (@ExpenseSplit num) :=
  let eid := e_id (inserted_expense user_id group_id amount now category db) in
  if split_equally
  then equal_rows eid user_id amount (group_members db group_id)
  else custom_rows eid user_id (truthy_dict custom_splits).

(** The store after a successful call that inserted [rows]. *)
Definition stored (user_id group_id : Z) (amount : num) (now : datetime)
    (category : Category) (db : @Store num) (rows : list (@ExpenseSplit num))
  : @Store num :=
  with_splits
    (with_expenses db
       (expenses db ++ [inserted_expense user_id group_id amount now category db]))
    (expense_splits db ++ rows).

(** ** services.py: get_group_balances *)

Record Balance : Type := {
  bal_user_id : Z;
  bal_username : string;
  total_paid : num;
  total_owed : num;
  net_balance : num
}.

Definition row : Type := (@ExpenseSplit num * @Expense num * User)%type.

(** The joined query: every (split, expense, user) with the split's expense
    in the group and the split's user in the users table. *)
Definition group_splits (v : @Store num) (group_id : Z) : list row :=
  flat_map
    (fun s =>
       flat_map
         (fun e =>
            map (fun u => (s, e, u))
              (filter (fun u => s_user_id s =? u_id u) (users v)))
         (filter
            (fun e =>
               (s_expense_id s =? e_id e)
               && option_Z_eqb (e_group_id e) (Some group_id))
            (expenses v)))
    (expense_splits v).

(** The dict [balances], in insertion order. *)
Definition dict : Type := list (Z * Balance).

Definition dict_mem (k : Z) (d : dict) : bool :=
  existsb (fun kv => fst kv =? k) d.

Definition dict_update (k : Z) (f : Balance -> Balance) (d : dict) : dict :=
  map (fun kv => if fst kv =? k then (fst kv, f (snd kv)) else kv) d.

Definition add_paid (x : num) (b : Balance) : Balance :=
  {| bal_user_id := bal_user_id b; bal_username := bal_username b;
     total_paid := add (total_paid b) x; total_owed := total_owed b;
     net_balance := net_balance b |}.

Definition add_owed (x : num) (b : Balance) : Balance :=
  {| bal_user_id := bal_user_id b; bal_username := bal_username b;
     total_paid := total_paid b; total_owed := add (total_owed b) x;
     net_balance := net_balance b |}.

Definition set_net (b : Balance) : Balance :=
  {| bal_user_id := bal_user_id b; bal_username := bal_username b;
     total_paid := total_paid b; total_owed := total_owed b;
     net_balance := sub (total_paid b) (total_owed b) |}.

(** One turn of the first loop. *)
Definition accumulate (balances : dict) (r : row) : dict :=
  let '(split, expense, user) := r in
  let balances1 :=
    if dict_mem (u_id user) balances then balances
    else balances ++ [(u_id user,
                       {| bal_user_id := u_id user;
                          bal_username := u_username user;
                          total_paid := of_Z 0; total_owed := of_Z 0;
                          net_balance := of_Z 0 |})] in
  let balances2 :=
    if s_paid split
    then dict_update (u_id user) (add_paid (e_amount expense)) balances1
    else balances1 in
  dict_update (u_id user) (add_owed (s_amount split)) balances2.

Definition group_balances (v : @Store num) (group_id : Z) : list Balance :=
  let balances := fold_left accumulate (group_splits v group_id) [] in
  map snd (map (fun kv => (fst kv, set_net (snd kv))) balances).

(** The totals in the words of the specification: what a user paid is the
    sum of [expense.amount] over the user's rows flagged paid, what a user
    owes is the sum of [split.amount] over all of the user's rows. *)
Definition row_user_id (r : row) : Z := u_id (snd r).

Definition spec_total_paid (uid : Z) (rows : list row) : num :=
  sum_left
    (map (fun r => e_amount (snd (fst r)))
       (filter (fun r => (row_user_id r =? uid) && s_paid (fst (fst r))) rows)).

Definition spec_total_owed (uid : Z) (rows : list row) : num :=
  sum_left
    (map (fun r => s_amount (fst (fst r)))
       (filter (fun r => row_user_id r =? uid) rows)).

(** What the first loop has built after the rows [rows]. *)
Definition tally (rows : list row) (d : dict) : Prop :=
  NoDup (map fst d)
  /\ (forall k, In k (map fst d) <-> exists r, In r rows /\ row_user_id r = k)
  /\ (forall k b, In (k, b) d ->
        bal_user_id b = k
        /\ total_paid b = spec_total_paid k rows
        /\ total_owed b = spec_total_owed k rows).

(** The joined rows of one expense: its split rows, each with its user. *)
Definition expense_rows (v : @Store num) (e : @Expense num) : list row :=
  flat_map
    (fun s =>
       if s_expense_id s =? e_id e
       then map (fun u => (s, e, u))
              (filter (fun u => s_user_id s =? u_id u) (users v))
       else [])
    (expense_splits v).

Definition get_group_balances (group_id : Z) (db : @Store num)
  : (exn + list Balance) * @Store num :=
  get_session (query (fun v => group_balances v group_id)) db.

(** ** services.py: set_custom_alert *)

Definition is_none {A : Type} (o : option A) : bool :=
  match o with
  | Some _ => false
  | None => true
  end.

(** The row the upsert looks for: same user, and the category key, where a
    falsy key selects the rows with no category. *)
Definition alert_key_matches (user_id : Z) (category_id : option Z)
    (a : Alert) : bool :=
  (a_user_id a =? user_id)
  && (if truthy_id category_id
      then option_Z_eqb (a_category_id a) category_id
      else is_none (a_category_id a)).

Definition set_custom_alert_body
    (user_id : Z) (category_id : option Z) (threshold_percentage : Z)
    (email_notification : bool)
  : @session num (option Alert) :=
  existing_alert <- query (fun v =>
                      query_first
                        (filter (alert_key_matches user_id category_id)
                           (alerts v))) ;;
  match existing_alert with
  | Some existing =>
      let updated :=
        {| a_id := a_id existing; a_user_id := a_user_id existing;
           a_category_id := a_category_id existing;
           a_threshold_percentage := threshold_percentage;
           a_is_active := true;
           a_email_notification := email_notification |} in
      session_dirty (UpdAlert updated) ;;;
      ret (Some updated)
  | None =>
      let alert :=
        {| a_id := 0; a_user_id := user_id; a_category_id := category_id;
           a_threshold_percentage := threshold_percentage;
           a_is_active := true;                    (* column default *)
           a_email_notification := email_notification |} in
      session_add (InsAlert alert) ;;;
      ret (Some alert)
  end.

Definition string_of (o : option string) : string :=
  match o with
  | Some s => s
  | None => EmptyString
  end.

Definition set_custom_alert
    (user_id : Z) (category_name : option string) (threshold_percentage : Z)
    (email_notification : bool) (db : @Store num)
  : option Alert * @Store num :=
  let run (category_id : option Z) (db1 : @Store num) :=
    match get_session
            (set_custom_alert_body user_id category_id threshold_percentage
               email_notification) db1 with
    | (inl _, db2) => (None, db2)
    | (inr r, db2) => (r, db2)
    end in
  if truthy_str category_name then
    match get_category_by_name (string_of category_name) db with
    | (inl _, db1) => (None, db1)
    | (inr None, db1) => (None, db1)
    | (inr (Some category), db1) => run (Some (c_id category)) db1
    end
  else run None db.

(** ** services.py: _check_budget_alerts

    What the evaluation shows and sends, in order. *)
Inductive event : Type :=
| WarnExceeded (category_name : string) (spent budget overspent : num)
| MailExceeded (email username category_name : string)
    (spent budget overspent : num)
| WarnThreshold (category_name : string) (percentage_left spent budget : num)
| MailThreshold (email username category_name : string)
    (spent budget percentage_left : num).

(** Truthiness of a list. *)
Definition truthy_list {A : Type} (l : list A) : bool :=
  match l with
  | [] => false
  | _ :: _ => true
  end.

(** [obj.attr] where [obj] may be None. *)
Definition attr {A B : Type} (o : option A) (f : A -> B) : exn + B :=
  match o with
  | Some a => inr (f a)
  | None => inl AttributeError
  end.

Definition alert_applies (user_id category_id : Z) (a : Alert) : bool :=
  (a_user_id a =? user_id) && a_is_active a
  && (option_Z_eqb (a_category_id a) (Some category_id)
      || is_none (a_category_id a)).

(** func.sum(Expense.amount) ... .scalar() or 0 *)
Definition total_spent (v : @Store num) (user_id category_id month year : Z)
  : num :=
  sum_left
    (map e_amount
       (filter
          (fun e =>
             (e_user_id e =? user_id) && (e_category_id e =? category_id)
             && (dt_month (e_date e) =? month) && (dt_year (e_date e) =? year))
          (expenses v))).

(** The body of the loop over the matching alerts. *)
Definition threshold_step (email_configured : bool) (user : option User)
    (category : option Category) (spent amount percentage_left : num)
    (a : Alert) : exn + list event :=
  if leb percentage_left (of_Z (a_threshold_percentage a)) then
    match attr category c_name with
    | inl e => inl e
    | inr cname =>
        let warning := WarnThreshold cname percentage_left spent amount in
        if a_email_notification a && email_configured then
          match user with
          | None => inl AttributeError
          | Some u =>
              inr [warning;
                   MailThreshold (u_email u) (u_username u) cname spent amount
                     percentage_left]
          end
        else inr [warning]
    end
  else inr [].

Fixpoint threshold_loop (step : Alert -> exn + list event) (l : list Alert)
  : exn + list event :=
  match l with
  | [] => inr []
  | a :: l' =>
      match step a with
      | inl e => inl e
      | inr evs =>
          match threshold_loop step l' with
          | inl e => inl e
          | inr evs' => inr (evs ++ evs')
          end
      end
  end.

(** The three lookups of the evaluation. *)
Definition found_budget (v : @Store num) (user_id category_id month year : Z)
  : option Budget :=
  query_first
    (filter
       (fun b =>
          (b_user_id b =? user_id) && (b_category_id b =? category_id)
          && (b_month b =? month) && (b_year b =? year))
       (budgets v)).

Definition found_user (v : @Store num) (user_id : Z) : option User :=
  query_first (filter (fun u => u_id u =? user_id) (users v)).

Definition found_category_id (v : @Store num) (category_id : Z)
  : option Category :=
  query_first (filter (fun c => c_id c =? category_id) (categories v)).

(** email_service.py: send_budget_exceeded_alert.  The body of the mail is
    built before anything is sent and shows [spent / budget * 100]; the
    sending itself catches its own errors. *)
Definition send_budget_exceeded_alert (email username category_name : string)
    (spent budget overspent : num) : exn + event :=
  match div_num spent budget with
  | inl e => inl e
  | inr _ =>
      inr (MailExceeded email username category_name spent budget overspent)
  end.

Definition _check_budget_alerts (email_configured : bool) (v : @Store num)
    (user_id category_id month year : Z) : exn + list event :=
  match found_budget v user_id category_id month year with
  | None => inr []
  | Some budget =>
      let spent := total_spent v user_id category_id month year in
      let user := found_user v user_id in
      let category := found_category_id v category_id in
      if ltb (b_amount budget) spent then
        let overspent := sub spent (b_amount budget) in
        match attr category c_name with
        | inl e => inl e
        | inr cname =>
            let warning :=
              WarnExceeded cname spent (b_amount budget) overspent in
            let alerts :=
              filter
                (fun a =>
                   alert_applies user_id category_id a
                   && a_email_notification a)
                (alerts v) in
            if truthy_list alerts && email_configured then
              match user with
              | None => inl AttributeError
              | Some u =>
                  match send_budget_exceeded_alert (u_email u) (u_username u)
                          cname spent (b_amount budget) overspent with
                  | inl e => inl e
                  | inr mail => inr [warning; mail]
                  end
              end
            else inr [warning]
        end
      else
        match div_num (sub (b_amount budget) spent) (b_amount budget) with
        | inl e => inl e
        | inr ratio =>
            let percentage_left := mul ratio (of_Z 100) in
            threshold_loop
              (threshold_step email_configured user category spent
                 (b_amount budget) percentage_left)
              (filter (alert_applies user_id category_id) (alerts v))
        end
  end.

(** The events of the threshold regime. *)
Definition is_threshold_event (ev : event) : bool :=
  match ev with
  | WarnThreshold _ _ _ _ | MailThreshold _ _ _ _ _ _ => true
  | _ => false
  end.

Definition is_threshold_warning (ev : event) : bool :=
  match ev with
  | WarnThreshold _ _ _ _ => true
  | _ => false
  end.

End Service.

(** ** Sums of rationals, for the conservation law *)

Definition Qsum {A : Type} (f : A -> Q) (l : list A) : Q :=
  fold_right (fun x acc => (f x + acc)%Q) 0%Q l.

(** The number a float stands for: every finite float is a rational,
    mantissa times a power of two. *)
Definition float_value (x : float) : Q :=
  match Prim2SF x with
  | S754_finite s m e =>
      let v := (inject_Z (Zpos m) * 2 ^ e)%Q in
      if s then (- v)%Q else v
  | _ => 0%Q
  end.


Section ExactLedger.

Context {num : Type} (val : num -> Q).





End ExactLedger.

(** ** Closed forms and classifiers for the rest of the service layer *)

Section ServiceViews.

Context {num : Type} {NUM : Number num}.

(** The category key set_custom_alert works with: no key when no name is
    given, the key of the named category, or nothing when the name is
    unknown (the method then returns None at once). *)
Definition resolved_key (category_name : option string) (db : @Store num)
  : option (option Z) :=
  if truthy_str category_name then
    match found_category (string_of category_name) db with
    | Some category => Some (Some (c_id category))
    | None => None
    end
  else Some None.

(** The row set_custom_alert inserts, with the key the table gives it. *)
Definition new_alert (user_id : Z) (category_id : option Z)
    (threshold_percentage : Z) (email_notification : bool) (db : @Store num)
  : Alert :=
  {| a_id := next_id (map a_id (alerts db)); a_user_id := user_id;
     a_category_id := category_id;
     a_threshold_percentage := threshold_percentage; a_is_active := true;
     a_email_notification := email_notification |}.

(** The row set_custom_alert rewrites an existing row into. *)
Definition rewritten_alert (old : Alert) (threshold_percentage : Z)
    (email_notification : bool) : Alert :=
  {| a_id := a_id old; a_user_id := a_user_id old;
     a_category_id := a_category_id old;
     a_threshold_percentage := threshold_percentage; a_is_active := true;
     a_email_notification := email_notification |}.

Definition is_mail_event (ev : @event num) : bool :=
  match ev with
  | MailExceeded _ _ _ _ _ _ | MailThreshold _ _ _ _ _ _ => true
  | _ => false
  end.

End ServiceViews.

(** ** services.py: add_expense and get_monthly_report *)

Section ServiceReports.

Context {num : Type} {NUM : Number num}.

(** The personal expense add_expense builds: no group, not shared. *)
Definition personal_expense (user_id : Z) (category : Category) (amount : num)
    (date : datetime) : @Expense num :=
  {| e_id := 0; e_user_id := user_id; e_category_id := c_id category;
     e_amount := amount; e_date := date; e_group_id := None;
     e_is_shared := false |}.

(** Inside the session: insert and flush the expense, then check the
    budget of its category and month on what the session now sees. *)
Definition add_expense_body (email_configured : bool) (user_id : Z)
    (category : Category) (amount : num) (date : datetime)
  : session (@Expense num * list (@event num)) :=
  expense <- add_flush_expense (personal_expense user_id category amount date) ;;
  checked <- query (fun v =>
               _check_budget_alerts email_configured v user_id (c_id category)
                 (dt_month date) (dt_year date)) ;;
  events <- lift checked ;;
  ret (expense, events).

(** [date or datetime.now()] *)
Definition date_or_now (date : option datetime) (now : datetime) : datetime :=
  match date with
  | Some d => d
  | None => now
  end.

(** The method returns the expense; the events are what it shows and
    sends on the way.  Any exception ends in [return None]. *)
Definition add_expense (email_configured : bool) (user_id : Z)
    (category_name : string) (amount : num) (date : option datetime)
    (now : datetime) (db : @Store num)
  : option (@Expense num * list (@event num)) * @Store num :=
  match get_category_by_name category_name db with
  | (inl _, db1) => (None, db1)
  | (inr None, db1) => (None, db1)
  | (inr (Some category), db1) =>
      match get_session
              (add_expense_body email_configured user_id category amount
                 (date_or_now date now)) db1 with
      | (inl _, db2) => (None, db2)
      | (inr r, db2) => (Some r, db2)
      end
  end.

(** One line of the budget comparison of the monthly report. *)
Record Comparison : Type := {
  cmp_category : string;
  cmp_budget : num;
  cmp_spent : num;
  cmp_remaining : num;
  cmp_percentage_used : num
}.

Record Report : Type := {
  rep_month : Z;
  rep_year : Z;
  rep_total_spent : num;
  rep_category_spending : list (string * num);
  rep_budget_comparison : list Comparison
}.

(** [if month is None or year is None: month, year = now.month, now.year] *)
Definition month_year (month year : option Z) (now : datetime) : Z * Z :=
  match month, year with
  | Some m, Some y => (m, y)
  | _, _ => (dt_month now, dt_year now)
  end.

(** Categories joined with the user's expenses of the month. *)
Definition month_rows (v : @Store num) (user_id month year : Z)
  : list (Category * @Expense num) :=
  flat_map
    (fun c =>
       map (fun e => (c, e))
         (filter
            (fun e =>
               (e_user_id e =? user_id) && (e_category_id e =? c_id c)
               && (dt_month (e_date e) =? month)
               && (dt_year (e_date e) =? year))
            (expenses v)))
    (categories v).

(** The keys of a GROUP BY, each once. *)
Fixpoint group_keys (seen names : list string) : list string :=
  match names with
  | [] => []
  | n :: names' =>
      if existsb (String.eqb n) seen then group_keys seen names'
      else n :: group_keys (n :: seen) names'
  end.

(** func.sum(Expense.amount) of the group of one category name. *)
Definition name_total (rows : list (Category * @Expense num)) (name : string)
  : num :=
  sum_left
    (map (fun r => e_amount (snd r))
       (filter (fun r => String.eqb (c_name (fst r)) name) rows)).

(** GROUP BY categories.name: one line per name, the groups in the order
    of the names (compared byte by byte). *)
Definition category_spending (v : @Store num) (user_id month year : Z)
  : list (string * num) :=
  let rows := month_rows v user_id month year in
  map (fun name => (name, name_total rows name))
    (order_by String.leb
       (group_keys [] (map (fun r => c_name (fst r)) rows))).

(** The user's budgets of the month, each with its category's name, read
    through the unique index (user_id, category_id, month, year) of
    budgets, hence by ascending category id. *)
Definition month_budgets (v : @Store num) (user_id month year : Z)
  : list (@Budget num * string) :=
  order_by (fun x y => b_category_id (fst x) <=? b_category_id (fst y))
    (flat_map
       (fun b =>
          map (fun c => (b, c_name c))
            (filter (fun c => b_category_id b =? c_id c) (categories v)))
       (filter
          (fun b =>
             (b_user_id b =? user_id) && (b_month b =? month)
             && (b_year b =? year))
          (budgets v))).

(** next((s[1] for s in category_spending if s[0] == cat_name), 0) *)
Definition spent_for (spending : list (string * num)) (cat_name : string)
  : num :=
  match filter (fun s => String.eqb (fst s) cat_name) spending with
  | s :: _ => snd s
  | [] => of_Z 0
  end.

(** (spent / budget.amount * 100) if budget.amount > 0 else 0 *)
Definition percentage_used (spent amount : num) : exn + num :=
  if ltb (of_Z 0) amount then
    match div_num spent amount with
    | inl e => inl e
    | inr ratio => inr (mul ratio (of_Z 100))
    end
  else inr (of_Z 0).

(** The loop building budget_comparison. *)
Fixpoint budget_comparison (spending : list (string * num))
    (l : list (@Budget num * string)) : exn + list Comparison :=
  match l with
  | [] => inr []
  | (budget, cat_name) :: l' =>
      let spent := spent_for spending cat_name in
      match percentage_used spent (b_amount budget) with
      | inl e => inl e
      | inr used =>
          match budget_comparison spending l' with
          | inl e => inl e
          | inr rest =>
              inr ({| cmp_category := cat_name;
                      cmp_budget := b_amount budget;
                      cmp_spent := spent;
                      cmp_remaining := sub (b_amount budget) spent;
                      cmp_percentage_used := used |} :: rest)
          end
      end
  end.

Definition monthly_report (v : @Store num) (user_id month year : Z)
  : exn + Report :=
  let spending := category_spending v user_id month year in
  match budget_comparison spending (month_budgets v user_id month year) with
  | inl e => inl e
  | inr comparison =>
      inr {| rep_month := month; rep_year := year;
             rep_total_spent :=
               sum_left
                 (map e_amount
                    (filter
                       (fun e =>
                          (e_user_id e =? user_id)
                          && (dt_month (e_date e) =? month)
                          && (dt_year (e_date e) =? year))
                       (expenses v)));
             rep_category_spending := spending;
             rep_budget_comparison := comparison |}
  end.

(** The method has no try: an exception of the body leaves through it. *)
Definition get_monthly_report (user_id : Z) (month year : option Z)
    (now : datetime) (db : @Store num) : (exn + Report) * @Store num :=
  let '(m, y) := month_year month year now in
  get_session (r <- query (fun v => monthly_report v user_id m y) ;; lift r) db.

End ServiceReports.

(** ** Units of work over every table

    The writes of the remaining methods: rows of users, categories, budgets
    and groups, beside the writes above. *)

Section ServiceTables.

Context {num : Type} {NUM : Number num}.

Inductive change : Type :=
| Keep (w : @write num)              (* a write to expenses, splits, alerts *)
| InsUser (u : User)                 (* session.add(User(...)) *)
| InsCategory (c : Category)         (* session.add(Category(...)) *)
| InsBudget (b : @Budget num)        (* session.add(Budget(...)) *)
| UpdBudget (b : @Budget num)        (* existing_budget.amount = amount *)
| InsGroup (g : Group) (members : list User).
                                     (* session.add(group) with its members *)

Definition with_users (db : @Store num) (l : list User) : @Store num :=
  {| users := l; categories := categories db; budgets := budgets db;
     expenses := expenses db; groups := groups db;
     user_group := user_group db; expense_splits := expense_splits db;
     alerts := alerts db |}.

Definition with_categories (db : @Store num) (l : list Category)
  : @Store num :=
  {| users := users db; categories := l; budgets := budgets db;
     expenses := expenses db; groups := groups db;
     user_group := user_group db; expense_splits := expense_splits db;
     alerts := alerts db |}.

Definition with_budgets (db : @Store num) (l : list (@Budget num))
  : @Store num :=
  {| users := users db; categories := categories db; budgets := l;
     expenses := expenses db; groups := groups db;
     user_group := user_group db; expense_splits := expense_splits db;
     alerts := alerts db |}.

Definition with_group (db : @Store num) (g : Group) (rows : list (Z * Z))
  : @Store num :=
  {| users := users db; categories := categories db; budgets := budgets db;
     expenses := expenses db; groups := groups db ++ [g];
     user_group := user_group db ++ rows;
     expense_splits := expense_splits db; alerts := alerts db |}.

Definition pair_eqb (p q : Z * Z) : bool :=
  (fst p =? fst q) && (snd p =? snd q).

(** Rows inserted one after the other under a primary key on the pair. *)
Fixpoint fresh_pairs (existing new : list (Z * Z)) : bool :=
  match new with
  | [] => true
  | p :: new' =>
      negb (existsb (pair_eqb p) existing) && fresh_pairs (p :: existing) new'
  end.

Definition same_budget_key (b b' : @Budget num) : bool :=
  (b_user_id b =? b_user_id b') && (b_category_id b =? b_category_id b')
  && (b_month b =? b_month b') && (b_year b =? b_year b').

Definition set_user_id (u : User) (i : Z) : User :=
  {| u_id := i; u_username := u_username u; u_email := u_email u |}.

Definition set_category_id (c : Category) (i : Z) : Category :=
  {| c_id := i; c_name := c_name c |}.

Definition set_budget_id (b : @Budget num) (i : Z) : @Budget num :=
  {| b_id := i; b_user_id := b_user_id b; b_category_id := b_category_id b;
     b_amount := b_amount b; b_month := b_month b; b_year := b_year b |}.

Definition set_group_id (g : Group) (i : Z) : Group :=
  {| g_id := i; g_name := g_name g; g_created_by := g_created_by g |}.

(** The rows of user_group a new group brings. *)
Definition member_rows (group_id : Z) (members : list User) : list (Z * Z) :=
  map (fun u => (u_id u, group_id)) members.

(** The UNIQUE and CHECK constraints a change meets in a store. *)
Definition admits (db : @Store num) (c : change) : bool :=
  match c with
  | Keep w => check w
  | InsUser u =>
      negb (existsb (fun r => String.eqb (u_username r) (u_username u))
              (users db))
      && negb (existsb (fun r => String.eqb (u_email r) (u_email u))
                 (users db))
  | InsCategory c =>
      negb (existsb (fun r => String.eqb (c_name r) (c_name c))
              (categories db))
  | InsBudget b =>
      ltb (of_Z 0) (b_amount b)
      && (1 <=? b_month b) && (b_month b <=? 12)
      && negb (existsb (same_budget_key b) (budgets db))
  | UpdBudget b =>
      ltb (of_Z 0) (b_amount b) && (1 <=? b_month b) && (b_month b <=? 12)
  | InsGroup g members =>
      fresh_pairs (user_group db)
        (member_rows (next_id (map g_id (groups db))) members)
  end.

Definition perform (c : change) (db : @Store num) : @Store num :=
  match c with
  | Keep w => apply_write w db
  | InsUser u =>
      with_users db (users db ++ [set_user_id u (next_id (map u_id (users db)))])
  | InsCategory c =>
      with_categories db
        (categories db
           ++ [set_category_id c (next_id (map c_id (categories db)))])
  | InsBudget b =>
      with_budgets db
        (budgets db ++ [set_budget_id b (next_id (map b_id (budgets db)))])
  | UpdBudget b =>
      with_budgets db
        (map (fun r => if b_id r =? b_id b then b else r) (budgets db))
  | InsGroup g members =>
      let i := next_id (map g_id (groups db)) in
      with_group db (set_group_id g i) (member_rows i members)
  end.

Fixpoint flush_changes (cs : list change) (db : @Store num)
  : exn + @Store num :=
  match cs with
  | [] => inr db
  | c :: cs' =>
      if admits db c then flush_changes cs' (perform c db)
      else inl IntegrityError
  end.

Record Work : Type := {
  seen : @Store num;
  todo : list change
}.

Definition work (A : Type) : Type := Work -> exn + (A * Work).

Definition work_ret {A : Type} (a : A) : work A := fun s => inr (a, s).

Definition work_bind {A B : Type} (m : work A) (k : A -> work B) : work B :=
  fun s =>
    match m s with
    | inl e => inl e
    | inr (a, s') => k a s'
    end.

(** session.add(obj), or a loaded row made dirty *)
Definition work_add (c : change) : work unit :=
  fun s => inr (tt, {| seen := seen s; todo := todo s ++ [c] |}).

(** session.flush() *)
Definition work_flush : work unit :=
  fun s =>
    match flush_changes (todo s) (seen s) with
    | inl e => inl e
    | inr db => inr (tt, {| seen := db; todo := [] |})
    end.

Definition work_query {A : Type} (f : @Store num -> A) : work A :=
  fun s => inr (f (seen s), s).

(** [with get_session() as session: body], for bodies that write to any
    table: commit on return, roll back and re-raise on an exception. *)
Definition get_session' {A : Type} (body : work A) (db : @Store num)
  : (exn + A) * @Store num :=
  match body {| seen := db; todo := [] |} with
  | inl e => (inl e, db)
  | inr (a, s) =>
      match flush_changes (todo s) (seen s) with
      | inl e => (inl e, db)
      | inr db' => (inr a, db')
      end
  end.

End ServiceTables.

Notation "x <~ m ;; k" := (work_bind m (fun x => k))
  (at level 61, m at next level, right associativity).
Notation "m ~;; k" := (work_bind m (fun _ => k))
  (at level 61, right associativity).

Section ServiceAccounts.

Context {num : Type} {NUM : Number num}.

(** *** create_user *)

Definition create_user_body (default_threshold : Z) (email_configured : bool)
    (username email : string) : @work num User :=
  i <~ work_query (fun v => next_id (map u_id (users v))) ;;
  work_add (InsUser {| u_id := 0; u_username := username; u_email := email |}) ~;;
  work_flush ~;;
  work_add
    (Keep (InsAlert {| a_id := 0; a_user_id := i; a_category_id := None;
                       a_threshold_percentage := default_threshold;
                       a_is_active := true;
                       a_email_notification := email_configured |})) ~;;
  work_flush ~;;
  work_ret {| u_id := i; u_username := username; u_email := email |}.

Definition create_user (default_threshold : Z) (email_configured : bool)
    (username email : string) (db : @Store num) : option User * @Store num :=
  match get_session'
          (create_user_body default_threshold email_configured username email)
          db with
  | (inl _, db1) => (None, db1)
  | (inr u, db1) => (Some u, db1)
  end.

(** Neither the name nor the address is taken. *)
Definition fresh_user (username email : string) (db : @Store num) : bool :=
  negb (existsb (fun r => String.eqb (u_username r) username) (users db))
  && negb (existsb (fun r => String.eqb (u_email r) email) (users db)).

(** *** create_category and initialize_default_categories *)

Definition has_category (name : string) (db : @Store num) : bool :=
  existsb (fun r => String.eqb (c_name r) name) (categories db).

(** What one turn of the initialisation loop leaves. *)
Definition ensure_category (name : string) (db : @Store num) : @Store num :=
  if has_category name db then db
  else with_categories db
         (categories db
            ++ [{| c_id := next_id (map c_id (categories db));
                   c_name := name |}]).


Definition create_category (name : string) (db : @Store num)
  : option Category * @Store num :=
  match get_session'
          (i <~ work_query (fun v => next_id (map c_id (categories v))) ;;
           work_add (InsCategory {| c_id := 0; c_name := name |}) ~;;
           work_ret {| c_id := i; c_name := name |}) db with
  | (inl _, db1) => (None, db1)
  | (inr c, db1) => (Some c, db1)
  end.

(** The loop of initialize_default_categories over the configured names. *)
Fixpoint initialize_categories (names : list string) (db : @Store num)
  : @Store num :=
  match names with
  | [] => db
  | cat_name :: names' =>
      match get_category_by_name cat_name db with
      | (inr (Some _), db1) => initialize_categories names' db1
      | (_, db1) =>           (* not found; the lookup itself never raises *)
          initialize_categories names' (snd (create_category cat_name db1))
      end
  end.

Definition DEFAULT_CATEGORIES : list string :=
  ["Food"; "Transport"; "Entertainment"; "Shopping"; "Bills"; "Healthcare";
   "Education"; "Other"]%string.

Definition initialize_default_categories (db : @Store num) : @Store num :=
  initialize_categories DEFAULT_CATEGORIES db.

(** *** set_budget *)

Definition set_budget_body (user_id : Z) (category : Category) (amount : num)
    (month year : Z) : @work num (@Budget num) :=
  existing_budget <~ work_query (fun v =>
                       found_budget v user_id (c_id category) month year) ;;
  match existing_budget with
  | Some existing =>
      let updated :=
        {| b_id := b_id existing; b_user_id := b_user_id existing;
           b_category_id := b_category_id existing; b_amount := amount;
           b_month := b_month existing; b_year := b_year existing |} in
      work_add (UpdBudget updated) ~;;
      work_ret updated
  | None =>
      let budget :=
        {| b_id := 0; b_user_id := user_id; b_category_id := c_id category;
           b_amount := amount; b_month := month; b_year := year |} in
      work_add (InsBudget budget) ~;;
      work_ret budget
  end.

Definition set_budget (user_id : Z) (category_name : string) (amount : num)
    (month year : option Z) (now : datetime) (db : @Store num)
  : option (@Budget num) * @Store num :=
  match get_category_by_name category_name db with
  | (inl _, db1) => (None, db1)
  | (inr None, db1) => (None, db1)
  | (inr (Some category), db1) =>
      let '(m, y) := month_year month year now in
      match get_session' (set_budget_body user_id category amount m y) db1 with
      | (inl _, db2) => (None, db2)
      | (inr b, db2) => (Some b, db2)
      end
  end.

(** *** create_group *)

(** The integers SQLite stores: a Python int beyond 64 bits is refused when
    it is bound to a statement. *)
Definition int64 (z : Z) : Prop := - 2 ^ 63 <= z < 2 ^ 63.

(** The loop over member_ids: ids without a user are skipped. *)
Definition found_members (v : @Store num) (member_ids : list Z) : list User :=
  flat_map
    (fun user_id =>
       match found_user v user_id with
       | Some user => [user]
       | None => []
       end)
    member_ids.

Definition create_group (name : string) (created_by : Z)
    (member_ids : list Z) (db : @Store num) : option Group * @Store num :=
  match get_session'
          (members <~ work_query (fun v => found_members v member_ids) ;;
           i <~ work_query (fun v => next_id (map g_id (groups v))) ;;
           work_add
             (InsGroup {| g_id := 0; g_name := name;
                          g_created_by := created_by |} members) ~;;
           work_flush ~;;
           work_ret {| g_id := i; g_name := name;
                       g_created_by := created_by |}) db with
  | (inl _, db1) => (None, db1)
  | (inr g, db1) => (Some g, db1)
  end.

End ServiceAccounts.

(** ** Ledger conditions *)

(** An expense has one payer when exactly one of its joined rows is
    flagged paid. *)
Definition one_payer {num : Type} (db : @Store num) (e : @Expense num)
  : Prop :=
  List.length (filter (fun r => s_paid (fst (fst r))) (expense_rows db e))
  = 1%nat.

(** Every group expense of the ledger has one payer. *)
Definition single_payer {num : Type} (db : @Store num) : Prop :=
  forall e g, In e (expenses db) -> e_group_id e = Some g -> one_payer db e.

(** The foreign key of expense_splits: every split row points at a stored
    expense. *)
Definition referential {num : Type} (db : @Store num) : Prop :=
  forall s, In s (expense_splits db) ->
            In (s_expense_id s) (map e_id (expenses db)).

(** The joined rows of an expense over given users and split rows. *)
Definition rows_for {num : Type} (us : list User) (e : @Expense num)
    (l : list (@ExpenseSplit num)) : list (@row num) :=
  flat_map
    (fun s =>
       if s_expense_id s =? e_id e
       then map (fun u => (s, e, u)) (filter (fun u => s_user_id s =? u_id u) us)
       else [])
    l.

(** ** A small ledger

    Three users, one category, a group of the three and a group without
    members; budgets, expenses and alerts vary with the scenario. *)

Definition asha : User :=
  {| u_id := 1; u_username := "asha"%string; u_email := "asha@example.org"%string |}.
Definition bala : User :=
  {| u_id := 2; u_username := "bala"%string; u_email := "bala@example.org"%string |}.
Definition chitra : User :=
  {| u_id := 3; u_username := "chitra"%string; u_email := "chitra@example.org"%string |}.

Definition food : Category := {| c_id := 1; c_name := "Food"%string |}.

Definition trip : Group := {| g_id := 1; g_name := "Trip"%string; g_created_by := 1 |}.
Definition nobody : Group :=
  {| g_id := 2; g_name := "Nobody"%string; g_created_by := 1 |}.

Definition nov2026 : datetime := {| dt_year := 2026; dt_month := 11 |}.

Definition ledger {num : Type} (bs : list (@Budget num))
    (es : list (@Expense num)) (als : list Alert) : @Store num :=
  {| users := [asha; bala; chitra]; categories := [food]; budgets := bs;
     expenses := es; groups := [trip; nobody];
     user_group := [(1, 1); (2, 1); (3, 1)];
     expense_splits := []; alerts := als |}.

Definition food_budget {num : Type} (x : num) : @Budget num :=
  {| b_id := 1; b_user_id := 1; b_category_id := 1; b_amount := x;
     b_month := 11; b_year := 2026 |}.

Definition food_expense {num : Type} (x : num) : @Expense num :=
  {| e_id := 1; e_user_id := 1; e_category_id := 1; e_amount := x;
     e_date := nov2026; e_group_id := None; e_is_shared := false |}.

(** An alert of asha on all categories. *)
Definition general_alert (i threshold : Z) (active mail : bool) : Alert :=
  {| a_id := i; a_user_id := 1; a_category_id := None;
     a_threshold_percentage := threshold; a_is_active := active;
     a_email_notification := mail |}.

(** The trip expense of asha as the ledger stores it. *)
Definition trip_expense {num : Type} (x : num) : @Expense num :=
  {| e_id := 1; e_user_id := 1; e_category_id := 1; e_amount := x;
     e_date := nov2026; e_group_id := Some 1; e_is_shared := true |}.

Definition trip_split {num : Type} (i uid : Z) (x : num) (paid : bool)
  : @ExpenseSplit num :=
  {| s_id := i; s_expense_id := 1; s_user_id := uid; s_amount := x;
     s_paid := paid |}.

(** Ninety split equally among the three, in floats and in rationals. *)
Definition ledger_equal : @Store float :=
  snd (add_shared_expense 1 1 "Food"%string 90%float nov2026 true None
         (ledger [] [] [])).

Definition ledger_equal_Q : @Store Q :=
  snd (add_shared_expense 1 1 "Food"%string (90 # 1) nov2026 true None
         (ledger [] [] [])).

(** A hundred split equally among the three, in floats. *)
Definition ledger_thirds : @Store float :=
  snd (add_shared_expense 1 1 "Food"%string 100%float nov2026 true None
         (ledger [] [] [])).


(** A month of asha: a food budget of 100, 95 spent, an alert at 10. *)
Definition ledger_month : @Store float :=
  ledger [food_budget 100%float] [food_expense 95%float]
    [general_alert 1 10 true false].




(** * Properties *)

Section ListFacts.

(** Ordering rows rearranges them and does nothing else. *)
Lemma place_rearranges {A : Type} (before : A -> A -> bool) (x : A)
    (l : list A) :
  Permutation (place before x l) (x :: l).
Proof.
  induction l as [|y l IH]; simpl; [reflexivity|].
  destruct (before x y); [reflexivity|].
  rewrite IH. apply perm_swap.
Qed.

Lemma order_by_rearranges {A : Type} (before : A -> A -> bool) (l : list A) :
  Permutation (order_by before l) l.
Proof.
  induction l as [|x l IH]; simpl; [reflexivity|].
  rewrite place_rearranges. now constructor.
Qed.

Lemma order_by_In {A : Type} (before : A -> A -> bool) (l : list A) (x : A) :
  In x (order_by before l) <-> In x l.
Proof.
  split; apply Permutation_in;
    [|symmetry]; apply order_by_rearranges.
Qed.

Lemma order_by_length {A : Type} (before : A -> A -> bool) (l : list A) :
  List.length (order_by before l) = List.length l.
Proof. apply Permutation_length, order_by_rearranges. Qed.

Lemma order_by_keys {A K : Type} (before : A -> A -> bool) (key : A -> K)
    (l : list A) :
  NoDup (map key l) -> NoDup (map key (order_by before l)).
Proof.
  apply Permutation_NoDup. symmetry.
  apply Permutation_map, order_by_rearranges.
Qed.

(** Selecting rows keeps their keys distinct. *)
Lemma distinct_keys_filter {K V : Type} (key : V -> K) (keep : V -> bool)
    (rows : list V) (Hkeys : NoDup (map key rows)) :
  NoDup (map key (filter keep rows)).
Proof.
  induction rows as [|x rows IH]; simpl in *; [constructor|].
  inversion Hkeys as [|? ? Hx Hrows]; subst.
  destruct (keep x); simpl; auto.
  constructor; auto.
  intros I. apply Hx. apply in_map_iff in I as (y & E & I).
  apply filter_In in I as [I _]. apply in_map_iff. now exists y.
Qed.

(** In a list without repetition a key is met once or never. *)
Lemma count_key_NoDup (k : Z) (l : list Z) :
  NoDup l ->
  List.length (filter (fun x => x =? k) l)
  = if existsb (fun x => x =? k) l then 1%nat else 0%nat.
Proof.
  induction 1 as [|x l Hx Hl IH]; simpl; [reflexivity|].
  destruct (x =? k) eqn:E; simpl; [|exact IH].
  apply Z.eqb_eq in E; subst x.
  destruct (existsb (fun x => x =? k) l) eqn:Ex.
  - apply existsb_exists in Ex as (y & I & E).
    apply Z.eqb_eq in E; subst y. contradiction.
  - now rewrite IH.
Qed.

Lemma length_filter_map {A B C : Type} (f : A -> C) (g : B -> C)
    (p : C -> bool) (l : list A) (l' : list B) :
  map f l = map g l' ->
  List.length (filter (fun x => p (f x)) l)
  = List.length (filter (fun y => p (g y)) l').
Proof.
  revert l'; induction l as [|x l IH]; intros [|y l']; simpl;
    try discriminate; [reflexivity|].
  intros H. injection H as E H. rewrite E.
  destruct (p (g y)); simpl; now rewrite (IH l' H).
Qed.

Lemma filter_map_comm {A B : Type} (f : A -> B) (p : B -> bool) (l : list A) :
  filter p (map f l) = map f (filter (fun x => p (f x)) l).
Proof.
  induction l as [|x l IH]; simpl; [reflexivity|].
  destruct (p (f x)); simpl; now rewrite IH.
Qed.

End ListFacts.

Section SessionFacts.

Context {num : Type} {NUM : Number num}.

Lemma with_splits_same (db : @Store num) :
  with_splits db (expense_splits db) = db.
Proof. destruct db; reflexivity. Qed.

Lemma for_each_add {A : Type} (f : A -> @write num) (l : list A) (s : Session) :
  for_each l (fun x => session_add (f x)) s
  = inr (tt, {| view := view s; pending := pending s ++ map f l |}).
Proof.
  revert s; induction l as [|x l IH]; intros s; simpl.
  - rewrite app_nil_r. destruct s; reflexivity.
  - unfold bind, session_add at 1. rewrite IH. simpl.
    now rewrite <- app_assoc.
Qed.

(** Flushing split rows either hits a CHECK or appends them, keys aside. *)
Lemma flush_splits_cases (l : list (@ExpenseSplit num)) (db : Store) :
  flush_writes (map InsSplit l) db = inl IntegrityError
  \/ exists rows,
       flush_writes (map InsSplit l) db
       = inr (with_splits db (expense_splits db ++ rows))
       /\ map split_fields rows = map split_fields l.
Proof.
  revert db; induction l as [|s l IH]; intros db; simpl.
  - right. exists []. rewrite app_nil_r, with_splits_same. now split.
  - destruct (leb (of_Z 0) (s_amount s)); [|now left].
    destruct (IH (with_splits db
                    (expense_splits db
                       ++ [set_split_id s (next_id (map s_id (expense_splits db)))])))
      as [E | (rows & E & F)]; [now left|right].
    eexists (_ :: rows). split.
    + rewrite E. simpl. now rewrite <- app_assoc.
    + simpl. now rewrite F.
Qed.

Lemma flush_splits_ok (l : list (@ExpenseSplit num)) (db : Store) :
  forallb (fun s => leb (of_Z 0) (s_amount s)) l = true ->
  exists rows,
    flush_writes (map InsSplit l) db
    = inr (with_splits db (expense_splits db ++ rows))
    /\ map split_fields rows = map split_fields l.
Proof.
  revert db; induction l as [|s l IH]; intros db H; simpl in *.
  - exists []. rewrite app_nil_r, with_splits_same. now split.
  - apply andb_true_iff in H as [Hs Hl]. rewrite Hs.
    destruct (IH (with_splits db
                    (expense_splits db
                       ++ [set_split_id s (next_id (map s_id (expense_splits db)))]))
                 Hl) as (rows & E & F).
    eexists (_ :: rows). split.
    + rewrite E. simpl. now rewrite <- app_assoc.
    + simpl. now rewrite F.
Qed.

Lemma get_category_by_name_eq (name : string) (db : @Store num) :
  get_category_by_name name db
  = (inr (query_first
            (filter (fun c => String.eqb (c_name c) name) (categories db))),
     db).
Proof. reflexivity. Qed.

Lemma split_fields_proj (rows l : list (@ExpenseSplit num)) :
  map split_fields rows = map split_fields l ->
  map s_expense_id rows = map s_expense_id l
  /\ map s_user_id rows = map s_user_id l
  /\ map s_amount rows = map s_amount l
  /\ map s_paid rows = map s_paid l.
Proof.
  intros H.
  pose proof (f_equal (map (fun t : Z * Z * num * bool => fst (fst (fst t)))) H) as H1.
  pose proof (f_equal (map (fun t : Z * Z * num * bool => snd (fst (fst t)))) H) as H2.
  pose proof (f_equal (map (fun t : Z * Z * num * bool => snd (fst t))) H) as H3.
  pose proof (f_equal (map (fun t : Z * Z * num * bool => snd t)) H) as H4.
  rewrite !map_map in H1, H2, H3, H4. simpl in *. auto.
Qed.

Lemma split_fields_In (rows l : list (@ExpenseSplit num)) (r : ExpenseSplit) :
  map split_fields rows = map split_fields l ->
  In r rows ->
  exists s0, In s0 l /\ split_fields r = split_fields s0.
Proof.
  intros H I. apply (in_map split_fields) in I. rewrite H in I.
  apply in_map_iff in I as (s0 & E & I). now exists s0.
Qed.

(** The members of a group are distinct users: [users.id] and the pair of
    [user_group] are primary keys. *)
Lemma group_members_NoDup (db : @Store num) (group_id : Z) :
  NoDup (map u_id (users db)) ->
  NoDup (user_group db) ->
  NoDup (map u_id (group_members db group_id)).
Proof.
  intros Hu Hg. unfold group_members. apply order_by_keys.
  induction (user_group db) as [|[u g] rows IH]; simpl; [constructor|].
  inversion Hg as [|? ? Hx Hrows]; subst. specialize (IH Hrows).
  destruct (g =? group_id) eqn:E; simpl; [|exact IH].
  apply Z.eqb_eq in E; subst g.
  rewrite map_app. apply NoDup_app; [now apply distinct_keys_filter|exact IH|].
  intros i I1 I2.
  apply in_map_iff in I1 as (x & <- & I1).
  apply filter_In in I1 as [_ I1]. apply Z.eqb_eq in I1.
  apply in_map_iff in I2 as (y & Ey & I2).
  apply in_flat_map in I2 as ([u' g'] & Ir & I2). simpl in I2.
  destruct (g' =? group_id) eqn:E'; [|contradiction].
  apply Z.eqb_eq in E'; subst g'.
  apply filter_In in I2 as [_ I2]. apply Z.eqb_eq in I2.
  apply Hx. replace u with u'; [exact Ir|congruence].
Qed.

End SessionFacts.

Section AddSharedExpense.

Context {num : Type} {NUM : Number num}.

Variables (user_id group_id : Z) (category_name : string) (amount : num)
  (now : datetime) (custom_splits : option (list (Z * num))).

Local Abbreviation inserted := (inserted_expense user_id group_id amount now).
Local Abbreviation category_of := (found_category category_name).
Local Abbreviation group_of := (found_group group_id).
Local Abbreviation planned :=
  (planned_rows user_id group_id amount now custom_splits).
Local Abbreviation stored_as := (stored user_id group_id amount now).

Lemma body_run (split_equally : bool) (category : Category) (group : Group)
    (db : @Store num) :
  group_of db = Some group ->
  add_shared_expense_body user_id group_id category amount now split_equally
    custom_splits {| view := db; pending := [] |}
  = if ltb (of_Z 0) amount then
      if split_equally && (Z.of_nat (List.length (group_members db group_id)) =? 0)
      then inl ZeroDivisionError
      else inr (Some (inserted category db),
                {| view := with_expenses db
                             (expenses db ++ [inserted category db]);
                   pending := map InsSplit (planned split_equally category db) |})
    else inl IntegrityError.
Proof.
  intros Hg. unfold found_group in Hg.
  assert (Gid : g_id group = group_id).
  { destruct (filter (fun g => g_id g =? group_id) (groups db)) as [|g l] eqn:F;
      [discriminate|].
    injection Hg as <-.
    assert (I : In g (filter (fun g => g_id g =? group_id) (groups db)))
      by (rewrite F; now left).
    apply filter_In in I as [_ I]. now apply Z.eqb_eq in I. }
  unfold add_shared_expense_body, bind at 1, query at 1. simpl.
  rewrite Hg. unfold bind at 1, add_flush_expense.
  unfold bind at 1, query at 1. simpl.
  unfold bind at 1, session_add at 1. simpl.
  unfold bind at 1, session_flush. simpl.
  destruct (ltb (of_Z 0) amount); [|reflexivity].
  simpl. unfold bind at 1, query at 1. simpl.
  rewrite Gid.
  change (group_members
            (with_expenses db
               (expenses db
                  ++ [set_expense_id
                        {| e_id := 0; e_user_id := user_id;
                           e_category_id := c_id category; e_amount := amount;
                           e_date := now; e_group_id := Some group_id;
                           e_is_shared := true |}
                        (next_id (map e_id (expenses db)))])) group_id)
    with (group_members db group_id).
  unfold planned_rows.
  destruct split_equally; simpl.
  - unfold bind at 1, bind at 1, div_int.
    destruct (Z.of_nat (List.length (group_members db group_id)) =? 0);
      [reflexivity|].
    simpl. rewrite for_each_add. unfold ret, equal_rows. simpl.
    now rewrite map_map.
  - unfold bind at 1. rewrite for_each_add. unfold ret, custom_rows. simpl.
    now rewrite map_map.
Qed.

(** Every run either leaves the store as it was and returns None, or
    inserts the expense and the planned rows together. *)
Lemma add_shared_expense_cases (split_equally : bool) (db : @Store num) :
  add_shared_expense user_id group_id category_name amount now split_equally
    custom_splits db = (None, db)
  \/ exists category group rows,
       category_of db = Some category
       /\ group_of db = Some group
       /\ ltb (of_Z 0) amount = true
       /\ (split_equally = true -> group_members db group_id <> [])
       /\ map split_fields rows
          = map split_fields (planned split_equally category db)
       /\ add_shared_expense user_id group_id category_name amount now
            split_equally custom_splits db
          = (Some (inserted category db), stored_as category db rows).
Proof.
  unfold add_shared_expense. rewrite get_category_by_name_eq.
  fold (category_of db).
  destruct (category_of db) as [category|] eqn:Hc; [|now left].
  unfold get_session.
  destruct (group_of db) as [group|] eqn:Hg.
  - rewrite (body_run split_equally category group db Hg).
    destruct (ltb (of_Z 0) amount) eqn:Hpos; [|now left].
    destruct (split_equally && _) eqn:Hz; [now left|].
    unfold commit. simpl.
    destruct (flush_splits_cases (planned split_equally category db)
                (with_expenses db (expenses db ++ [inserted category db])))
      as [E | (rows & E & F)]; rewrite E; [now left|].
    right. exists category, group, rows. repeat split; trivial.
    intros -> Hnil. rewrite Hnil in Hz. discriminate.
  - left. unfold add_shared_expense_body, bind, query. simpl.
    unfold found_group in Hg. rewrite Hg. reflexivity.
Qed.

(** When the lookups succeed and every CHECK holds, the call succeeds. *)
Lemma add_shared_expense_ok (split_equally : bool) (db : @Store num)
    (category : Category) (group : Group) :
  category_of db = Some category ->
  group_of db = Some group ->
  ltb (of_Z 0) amount = true ->
  (split_equally = true -> group_members db group_id <> []) ->
  forallb (fun s => leb (of_Z 0) (s_amount s))
    (planned split_equally category db) = true ->
  exists rows,
    map split_fields rows
    = map split_fields (planned split_equally category db)
    /\ add_shared_expense user_id group_id category_name amount now
         split_equally custom_splits db
       = (Some (inserted category db), stored_as category db rows).
Proof.
  intros Hc Hg Hpos Hmem Hchk.
  unfold add_shared_expense. rewrite get_category_by_name_eq.
  fold (category_of db). rewrite Hc. unfold get_session.
  rewrite (body_run split_equally category group db Hg), Hpos.
  assert (Hz : split_equally
               && (Z.of_nat (List.length (group_members db group_id)) =? 0)
               = false).
  { destruct split_equally; [|reflexivity]. simpl.
    apply Z.eqb_neq. specialize (Hmem eq_refl).
    destruct (group_members db group_id); [congruence|simpl; lia]. }
  rewrite Hz. unfold commit. simpl.
  destruct (flush_splits_ok (planned split_equally category db)
              (with_expenses db (expenses db ++ [inserted category db]))
              Hchk) as (rows & E & F).
  rewrite E. exists rows. now split.
Qed.

(** The tables a shared expense does not touch. *)
Lemma stored_frame (category : Category) (db : @Store num)
    (rows : list (@ExpenseSplit num)) :
  users (stored_as category db rows) = users db
  /\ categories (stored_as category db rows) = categories db
  /\ budgets (stored_as category db rows) = budgets db
  /\ groups (stored_as category db rows) = groups db
  /\ user_group (stored_as category db rows) = user_group db
  /\ alerts (stored_as category db rows) = alerts db.
Proof. repeat split. Qed.

(** C3. A shared expense of amount A added in equal-split mode to a group
    of N >= 1 members gives every member exactly one split row, of amount
    A / N; the payer's row is flagged paid and every other row is not.
    The two CHECK constraints the insertion meets are the hypotheses on the
    amount and on the quotient. *)
Theorem equal_split_one_row_per_member (db : @Store num)
    (category : Category) (group : Group) :
  category_of db = Some category ->
  group_of db = Some group ->
  NoDup (map u_id (users db)) ->
  NoDup (user_group db) ->
  (1 <= List.length (group_members db group_id))%nat ->
  ltb (of_Z 0) amount = true ->
  leb (of_Z 0)
    (div amount (of_Z (Z.of_nat (List.length (group_members db group_id)))))
  = true ->
  exists expense rows db',
    add_shared_expense user_id group_id category_name amount now true
      custom_splits db = (Some expense, db')
    /\ e_amount expense = amount
    /\ e_user_id expense = user_id
    /\ expenses db' = expenses db ++ [expense]
    /\ expense_splits db' = expense_splits db ++ rows
    /\ (forall r, In r rows ->
          s_expense_id r = e_id expense
          /\ s_amount r
             = div amount
                 (of_Z (Z.of_nat (List.length (group_members db group_id))))
          /\ s_paid r = (s_user_id r =? user_id))
    /\ (forall member, In member (group_members db group_id) ->
          List.length (filter (fun r => s_user_id r =? u_id member) rows)
          = 1%nat).
Proof.
  intros Hc Hg Hu Hug Hn Hpos Hq.
  destruct (add_shared_expense_ok true db category group Hc Hg Hpos)
    as (rows & F & E).
  - intros _ Hnil. rewrite Hnil in Hn. simpl in Hn. lia.
  - unfold planned_rows, equal_rows. rewrite forallb_forall.
    intros x I. apply in_map_iff in I as (m & <- & _). exact Hq.
  - exists (inserted category db), rows, (stored_as category db rows).
    repeat split; trivial.
    + destruct (split_fields_In _ _ r F H) as (s0 & I & Es).
      unfold planned_rows, equal_rows in I.
      apply in_map_iff in I as (m & <- & _).
      injection Es as E1 _ _ _. exact E1.
    + destruct (split_fields_In _ _ r F H) as (s0 & I & Es).
      unfold planned_rows, equal_rows in I.
      apply in_map_iff in I as (m & <- & _).
      injection Es as _ _ E3 _. exact E3.
    + destruct (split_fields_In _ _ r F H) as (s0 & I & Es).
      unfold planned_rows, equal_rows in I.
      apply in_map_iff in I as (m & <- & _).
      injection Es as _ E2 _ E4. rewrite E4, E2. reflexivity.
    + intros member I.
      destruct (split_fields_proj _ _ F) as (_ & Fu & _ & _).
      rewrite (length_filter_map s_user_id s_user_id
                 (fun i => i =? u_id member) rows _ Fu).
      unfold planned_rows, equal_rows.
      transitivity
        (List.length
           (filter (fun x => x =? u_id member)
              (map u_id (group_members db group_id)))).
      { rewrite !filter_map_comm, !length_map. reflexivity. }
      rewrite count_key_NoDup by now apply group_members_NoDup.
      assert (X : existsb (fun x => x =? u_id member)
                    (map u_id (group_members db group_id)) = true).
      { apply existsb_exists. exists (u_id member). split.
        - now apply in_map.
        - apply Z.eqb_refl. }
      now rewrite X.
Qed.

(** C4, as the code has it.  Of the split rows a successful call inserts
    for its expense, at most one is flagged paid and a flagged row is the
    payer's; there is one exactly when the payer is among the group's
    members (equal mode) or among the keys of the mapping (custom mode). *)
Theorem paid_row_belongs_to_payer (split_equally : bool) (db db' : @Store num)
    (expense : @Expense num) :
  NoDup (map u_id (users db)) ->
  NoDup (user_group db) ->
  NoDup (map fst (truthy_dict custom_splits)) ->
  add_shared_expense user_id group_id category_name amount now split_equally
    custom_splits db = (Some expense, db') ->
  exists rows,
    expense_splits db' = expense_splits db ++ rows
    /\ e_user_id expense = user_id
    /\ (forall r, In r rows -> s_expense_id r = e_id expense)
    /\ (forall r, In r rows -> s_paid r = true -> s_user_id r = user_id)
    /\ List.length (filter s_paid rows)
       = if existsb (fun k => k =? user_id)
              (if split_equally
               then map u_id (group_members db group_id)
               else map fst (truthy_dict custom_splits))
         then 1%nat else 0%nat.
Proof.
  intros Hu Hug Hk Hrun.
  destruct (add_shared_expense_cases split_equally db)
    as [E | (category & group & rows & _ & _ & _ & _ & F & E)];
    rewrite E in Hrun; [discriminate|].
  injection Hrun as <- <-.
  exists rows. split; [reflexivity|]. split; [reflexivity|].
  assert (P : forall r, In r rows ->
            s_expense_id r = e_id (inserted category db)
            /\ s_paid r = (s_user_id r =? user_id)).
  { intros r I. destruct (split_fields_In _ _ r F I) as (s0 & I0 & Es).
    injection Es as E1 E2 _ E4. rewrite E1, E2, E4.
    unfold planned_rows, equal_rows, custom_rows in I0.
    destruct split_equally; apply in_map_iff in I0 as (m & <- & _);
      now split. }
  split; [intros r I; apply (P r I)|].
  split.
  { intros r I Hp. destruct (P r I) as [_ Q]. rewrite Hp in Q.
    symmetry in Q. now apply Z.eqb_eq in Q. }
  transitivity
    (List.length (filter s_paid (planned split_equally category db))).
  { exact (length_filter_map split_fields split_fields (fun t => snd t)
             rows _ F). }
  unfold planned_rows, equal_rows, custom_rows.
  destruct split_equally.
  - rewrite <- (count_key_NoDup user_id) by now apply group_members_NoDup.
    rewrite !filter_map_comm, !length_map. reflexivity.
  - rewrite <- (count_key_NoDup user_id) by exact Hk.
    rewrite !filter_map_comm, !length_map. reflexivity.
Qed.

(** C5, as the code has it.  The call fails, returning None, when the
    group has no member in equal-split mode (the division raises) or when
    the amount is not positive (the CHECK on expenses rejects the row); the
    store is then as before: no expense and no split row is persisted. *)
Theorem add_shared_expense_rejects (split_equally : bool) (db : @Store num) :
  (split_equally = true /\ group_members db group_id = [])
  \/ ltb (of_Z 0) amount = false ->
  add_shared_expense user_id group_id category_name amount now split_equally
    custom_splits db = (None, db).
Proof.
  intros H.
  destruct (add_shared_expense_cases split_equally db)
    as [E | (category & group & rows & _ & _ & Hpos & Hmem & _ & _)];
    [exact E|].
  destruct H as [[He Hnil] | Hneg].
  - now destruct (Hmem He).
  - congruence.
Qed.

(** C6. Adding a shared expense is all or nothing: either the call returns
    None and the store is unchanged, or the expense and the split rows of
    its allocation, all pointing at it, are persisted together and nothing
    else changes. *)
Theorem add_shared_expense_atomic (split_equally : bool) (db : @Store num) :
  add_shared_expense user_id group_id category_name amount now split_equally
    custom_splits db = (None, db)
  \/ exists expense rows db',
       add_shared_expense user_id group_id category_name amount now
         split_equally custom_splits db = (Some expense, db')
       /\ expenses db' = expenses db ++ [expense]
       /\ expense_splits db' = expense_splits db ++ rows
       /\ (forall r, In r rows -> s_expense_id r = e_id expense)
       /\ map s_user_id rows
          = (if split_equally
             then map u_id (group_members db group_id)
             else map fst (truthy_dict custom_splits))
       /\ users db' = users db /\ categories db' = categories db
       /\ budgets db' = budgets db /\ groups db' = groups db
       /\ user_group db' = user_group db /\ alerts db' = alerts db.
Proof.
  destruct (add_shared_expense_cases split_equally db)
    as [E | (category & group & rows & _ & _ & _ & _ & F & E)];
    [now left|right].
  exists (inserted category db), rows, (stored_as category db rows).
  split; [exact E|]. split; [reflexivity|]. split; [reflexivity|].
  split.
  { intros r I. destruct (split_fields_In _ _ r F I) as (s0 & I0 & Es).
    injection Es as E1 _ _ _. rewrite E1.
    unfold planned_rows, equal_rows, custom_rows in I0.
    destruct split_equally; apply in_map_iff in I0 as (m & <- & _);
      reflexivity. }
  split; [|repeat split].
  destruct (split_fields_proj _ _ F) as (_ & Fu & _ & _). rewrite Fu.
  unfold planned_rows, equal_rows, custom_rows.
  destruct split_equally; rewrite map_map; reflexivity.
Qed.

End AddSharedExpense.

Section BalanceEngine.

Context {num : Type} {NUM : Number num}.

Lemma sum_left_snoc (xs : list num) (x : num) :
  sum_left (xs ++ [x]) = add (sum_left xs) x.
Proof. unfold sum_left. now rewrite fold_left_app. Qed.

Lemma dict_update_keys (k : Z) (f : @Balance num -> Balance) (d : dict) :
  map fst (dict_update k f d) = map fst d.
Proof.
  induction d as [|[k' b] d IH]; simpl; [reflexivity|].
  rewrite IH. now destruct (k' =? k).
Qed.

Lemma dict_update_In (k0 : Z) (f : @Balance num -> Balance) (d : dict)
    (k : Z) (b : Balance) :
  In (k, b) (dict_update k0 f d) ->
  exists b0, In (k, b0) d /\ b = if k =? k0 then f b0 else b0.
Proof.
  unfold dict_update. intros I. apply in_map_iff in I as ([k' b0] & E & I).
  simpl in E. destruct (k' =? k0) eqn:K; injection E as <- <-;
    exists b0; rewrite K; now split.
Qed.

Lemma dict_mem_In (k : Z) (d : @dict num) :
  dict_mem k d = true <-> In k (map fst d).
Proof.
  unfold dict_mem. rewrite existsb_exists. split.
  - intros ([k' b] & I & E). apply Z.eqb_eq in E. simpl in E. subst k'.
    apply in_map_iff. now exists (k, b).
  - intros I. apply in_map_iff in I as ([k' b] & E & I). simpl in E. subst k'.
    exists (k, b). split; [exact I|apply Z.eqb_refl].
Qed.

Lemma filter_none {A : Type} (p : A -> bool) (l : list A) :
  (forall x, In x l -> p x = false) -> filter p l = [].
Proof.
  induction l as [|x l IH]; simpl; intros H; [reflexivity|].
  rewrite (H x) by now left. apply IH. intros y I. apply H. now right.
Qed.

Lemma tally_nil : tally [] [].
Proof.
  repeat split; simpl; try constructor; try contradiction.
  intros (r & [] & _).
Qed.

Lemma spec_total_paid_snoc (k : Z) (rows : list (@row num)) (r : row) :
  spec_total_paid k (rows ++ [r])
  = if (row_user_id r =? k) && s_paid (fst (fst r))
    then add (spec_total_paid k rows) (e_amount (snd (fst r)))
    else spec_total_paid k rows.
Proof.
  unfold spec_total_paid. rewrite filter_app. cbn [filter].
  destruct ((row_user_id r =? k) && s_paid (fst (fst r))).
  - rewrite map_app. cbn [map]. apply sum_left_snoc.
  - now rewrite app_nil_r.
Qed.

Lemma spec_total_owed_snoc (k : Z) (rows : list (@row num)) (r : row) :
  spec_total_owed k (rows ++ [r])
  = if row_user_id r =? k
    then add (spec_total_owed k rows) (s_amount (fst (fst r)))
    else spec_total_owed k rows.
Proof.
  unfold spec_total_owed. rewrite filter_app. cbn [filter].
  destruct (row_user_id r =? k).
  - rewrite map_app. cbn [map]. apply sum_left_snoc.
  - now rewrite app_nil_r.
Qed.

Lemma tally_step (rows : list (@row num)) (d : @dict num) (r : row) :
  tally rows d -> tally (rows ++ [r]) (accumulate d r).
Proof.
  intros (Hnd & Hkeys & Hval). destruct r as [[s e] u]. unfold accumulate.
  set (k0 := u_id u).
  set (init := {| bal_user_id := k0; bal_username := u_username u;
                  total_paid := of_Z 0; total_owed := of_Z 0;
                  net_balance := of_Z 0 |}).
  set (d1 := if dict_mem k0 d then d else d ++ [(k0, init)]).
  set (d2 := if s_paid s then dict_update k0 (add_paid (e_amount e)) d1
             else d1).
  assert (M1 : forall k, In k (map fst d1) <-> In k (map fst d) \/ k = k0).
  { intros k. unfold d1. destruct (dict_mem k0 d) eqn:Hm.
    - apply dict_mem_In in Hm. split; [now left|]. intros [I| ->]; trivial.
    - rewrite map_app, in_app_iff. simpl. intuition. }
  assert (N1 : NoDup (map fst d1)).
  { unfold d1. destruct (dict_mem k0 d) eqn:Hm; [exact Hnd|].
    rewrite map_app. simpl. apply NoDup_app; [exact Hnd|repeat constructor; auto|].
    intros k I [<-|[]].
    apply dict_mem_In in I. congruence. }
  assert (V1 : forall k b, In (k, b) d1 ->
            bal_user_id b = k
            /\ total_paid b = spec_total_paid k rows
            /\ total_owed b = spec_total_owed k rows).
  { intros k b. unfold d1. destruct (dict_mem k0 d) eqn:Hm; [apply Hval|].
    rewrite in_app_iff. intros [I|[E|[]]]; [now apply Hval|].
    injection E as <- <-.
    assert (Hno : forall r, In r rows -> (row_user_id r =? k0) = false).
    { intros r I. apply Z.eqb_neq. intros Er.
      assert (X : In k0 (map fst d)) by (apply Hkeys; now exists r).
      apply dict_mem_In in X. congruence. }
    unfold spec_total_paid, spec_total_owed.
    rewrite !filter_none; [now repeat split|exact Hno|].
    intros r I. now rewrite (Hno r I). }
  assert (K2 : map fst d2 = map fst d1).
  { unfold d2. destruct (s_paid s); [apply dict_update_keys|reflexivity]. }
  assert (V2 : forall k b, In (k, b) d2 ->
            bal_user_id b = k
            /\ total_paid b = spec_total_paid k (rows ++ [(s, e, u)])
            /\ total_owed b = spec_total_owed k rows).
  { intros k b I. rewrite spec_total_paid_snoc.
    unfold row_user_id. simpl. fold k0. rewrite (Z.eqb_sym k0 k).
    unfold d2 in I. destruct (s_paid s).
    - apply dict_update_In in I as (b0 & I & ->).
      destruct (V1 k b0 I) as (A & B & C).
      destruct (k =? k0); simpl; [|now repeat split].
      repeat split; trivial. now rewrite B.
    - rewrite andb_false_r. now apply V1. }
  repeat split.
  - now rewrite dict_update_keys, K2.
  - rewrite dict_update_keys, K2. intros I. apply M1 in I as [I| ->].
    + apply Hkeys in I as (r & I & E). exists r. split; [|exact E].
      apply in_app_iff. now left.
    + exists (s, e, u). split; [|reflexivity]. apply in_app_iff. right. now left.
  - rewrite dict_update_keys, K2. intros (r & I & E). apply M1.
    apply in_app_iff in I as [I|[<-|[]]].
    + left. apply Hkeys. now exists r.
    + right. now rewrite <- E.
  - apply dict_update_In in H as (b0 & I & ->).
    destruct (V2 k b0 I) as (A & _ & _). now destruct (k =? k0).
  - apply dict_update_In in H as (b0 & I & ->).
    destruct (V2 k b0 I) as (_ & B & _). now destruct (k =? k0).
  - apply dict_update_In in H as (b0 & I & ->).
    destruct (V2 k b0 I) as (_ & _ & C). rewrite spec_total_owed_snoc.
    unfold row_user_id. simpl. fold k0. rewrite (Z.eqb_sym k0 k).
    destruct (k =? k0); simpl; [now rewrite C|exact C].
Qed.

Lemma tally_fold (rows : list (@row num)) :
  tally rows (fold_left accumulate rows []).
Proof.
  induction rows as [|r rows IH] using rev_ind; [apply tally_nil|].
  rewrite fold_left_app. simpl. now apply tally_step.
Qed.

Lemma group_balances_In (db : @Store num) (group_id : Z) (b : Balance) :
  In b (group_balances db group_id) <->
  exists b0,
    In (bal_user_id b0, b0)
      (fold_left accumulate (group_splits db group_id) [])
    /\ b = set_net b0.
Proof.
  unfold group_balances. rewrite map_map. simpl.
  destruct (tally_fold (group_splits db group_id)) as (_ & _ & V).
  rewrite in_map_iff. split.
  - intros ([k b0] & <- & I). exists b0. split; [|reflexivity].
    destruct (V k b0 I) as (-> & _). exact I.
  - intros (b0 & I & ->). now exists (bal_user_id b0, b0).
Qed.

Lemma group_balances_user_ids (db : @Store num) (group_id : Z) :
  map bal_user_id (group_balances db group_id)
  = map fst (fold_left accumulate (group_splits db group_id) []).
Proof.
  unfold group_balances. rewrite !map_map. simpl.
  destruct (tally_fold (group_splits db group_id)) as (_ & _ & V).
  apply map_ext_in. intros [k b0] I. simpl. now destruct (V k b0 I).
Qed.

(** C2. The balance engine returns, for every group, one entry per user
    with a split row in the group; the entry's total_paid is the sum of
    expense.amount over the user's rows flagged paid, its total_owed the sum
    of split.amount over all the user's rows, and its net_balance is
    total_paid - total_owed. *)
Theorem get_group_balances_totals (db : @Store num) (group_id : Z) :
  let rows := group_splits db group_id in
  exists balances,
    get_group_balances group_id db = (inr balances, db)
    /\ NoDup (map bal_user_id balances)
    /\ (forall uid, In uid (map bal_user_id balances)
                    <-> exists r, In r rows /\ row_user_id r = uid)
    /\ (forall b, In b balances ->
          total_paid b = spec_total_paid (bal_user_id b) rows
          /\ total_owed b = spec_total_owed (bal_user_id b) rows
          /\ net_balance b = sub (total_paid b) (total_owed b)).
Proof.
  intros rows. exists (group_balances db group_id).
  destruct (tally_fold rows) as (Hnd & Hkeys & Hval).
  split; [reflexivity|]. rewrite group_balances_user_ids.
  split; [exact Hnd|]. split; [exact Hkeys|].
  intros b I. apply group_balances_In in I as (b0 & I & ->).
  destruct (Hval _ _ I) as (_ & B & C). simpl. now repeat split.
Qed.

End BalanceEngine.

Section BudgetAlerts.

Context {num : Type} {NUM : Number num}.

Variables (email_configured : bool) (db : @Store num)
  (user_id category_id month year : Z).

Local Abbreviation spent := (total_spent db user_id category_id month year).
Local Abbreviation matching :=
  (filter (alert_applies user_id category_id) (alerts db)).

(** What the loop shows and sends for one alert once the names resolve. *)
Lemma threshold_step_found (user : User) (category : Category)
    (amount percentage_left : num) (a : Alert) :
  threshold_step email_configured (Some user) (Some category) spent amount
    percentage_left a
  = inr (if leb percentage_left (of_Z (a_threshold_percentage a))
         then WarnThreshold (c_name category) percentage_left spent amount
              :: (if a_email_notification a && email_configured
                  then [MailThreshold (u_email user) (u_username user)
                          (c_name category) spent amount percentage_left]
                  else [])
         else []).
Proof.
  unfold threshold_step. simpl.
  destruct (leb percentage_left (of_Z (a_threshold_percentage a)));
    [|reflexivity].
  now destruct (a_email_notification a && email_configured).
Qed.

Lemma threshold_loop_total (f : Alert -> list (@event num))
    (step : Alert -> exn + list event) (l : list Alert) :
  (forall a, step a = inr (f a)) ->
  threshold_loop step l = inr (flat_map f l).
Proof.
  intros H. induction l as [|a l IH]; simpl; [reflexivity|].
  now rewrite H, IH.
Qed.


(** C7. When spent > budget.amount the evaluation is classified Exceeded
    with overspent = spent - budget.amount, and the threshold regime is
    skipped: the result holds the exceeded warning, the exceeded mail when
    one is due, and no threshold event.  The budget's amount is not zero,
    as the CHECK on budgets has it: the body of the exceeded mail divides
    by it. *)
Theorem exceeded_takes_precedence (budget : Budget) (user : User)
    (category : Category) :
  found_budget db user_id category_id month year = Some budget ->
  found_user db user_id = Some user ->
  found_category_id db category_id = Some category ->
  is_zero (b_amount budget) = false ->
  ltb (b_amount budget) spent = true ->
  exists events,
    _check_budget_alerts email_configured db user_id category_id month year
    = inr events
    /\ events
       = WarnExceeded (c_name category) spent (b_amount budget)
           (sub spent (b_amount budget))
         :: (if truthy_list
                  (filter
                     (fun a =>
                        alert_applies user_id category_id a
                        && a_email_notification a) (alerts db))
                && email_configured
             then [MailExceeded (u_email user) (u_username user)
                     (c_name category) spent (b_amount budget)
                     (sub spent (b_amount budget))]
             else [])
    /\ forall ev, In ev events -> is_threshold_event ev = false.
Proof.
  intros Hb Hu Hc Hnz Hgt.
  unfold _check_budget_alerts, send_budget_exceeded_alert, div_num.
  rewrite Hb, Hu, Hc, Hgt, Hnz. simpl.
  destruct (truthy_list _ && email_configured); eexists;
    (split; [reflexivity|split; [reflexivity|]]);
    simpl; intros ev H; intuition (subst; reflexivity).
Qed.

(** C8. When spent > budget.amount is false, percentage_left is
    (budget.amount - spent) / budget.amount * 100 and the loop fires for a
    matching active alert exactly when percentage_left <= its threshold
    (the comparison is the inclusive one): the result is, alert by alert,
    the warning and the mail when due, or nothing; there are as many
    warnings as matching alerts whose threshold is reached. *)
Theorem threshold_fires_iff_reached (budget : Budget) (user : User)
    (category : Category) :
  found_budget db user_id category_id month year = Some budget ->
  found_user db user_id = Some user ->
  found_category_id db category_id = Some category ->
  ltb (b_amount budget) spent = false ->
  is_zero (b_amount budget) = false ->
  let percentage_left :=
    mul (div (sub (b_amount budget) spent) (b_amount budget)) (of_Z 100) in
  let reached (a : Alert) :=
    leb percentage_left (of_Z (a_threshold_percentage a)) in
  exists events,
    _check_budget_alerts email_configured db user_id category_id month year
    = inr events
    /\ events
       = flat_map
           (fun a =>
              if reached a
              then WarnThreshold (c_name category) percentage_left spent
                     (b_amount budget)
                   :: (if a_email_notification a && email_configured
                       then [MailThreshold (u_email user) (u_username user)
                               (c_name category) spent (b_amount budget)
                               percentage_left]
                       else [])
              else [])
           matching
    /\ List.length (filter is_threshold_warning events)
       = List.length (filter reached matching).
Proof.
  intros Hb Hu Hc Hle Hnz percentage_left reached.
  unfold _check_budget_alerts, div_num. rewrite Hb, Hu, Hc, Hle, Hnz.
  fold percentage_left.
  rewrite (threshold_loop_total _ _ _
             (threshold_step_found user category (b_amount budget)
                percentage_left)).
  eexists. split; [reflexivity|]. split; [reflexivity|].
  unfold reached.
  induction matching as [|a l IH]; cbn [flat_map filter]; [reflexivity|].
  rewrite filter_app, length_app, IH.
  destruct (leb percentage_left (of_Z (a_threshold_percentage a)));
    [|reflexivity].
  now destruct (a_email_notification a && email_configured).
Qed.


End BudgetAlerts.


Section AlertUpsert.

Context {num : Type} {NUM : Number num}.

Lemma query_first_filter_In {A : Type} (p : A -> bool) (l : list A) (x : A) :
  In x l -> p x = true ->
  exists y, query_first (filter p l) = Some y /\ In y l /\ p y = true.
Proof.
  intros I H.
  destruct (filter p l) as [|y l'] eqn:F.
  - assert (X : In x (filter p l)) by (apply filter_In; now split).
    rewrite F in X. contradiction.
  - exists y. split; [reflexivity|]. apply filter_In. rewrite F. now left.
Qed.

Lemma update_alert_length (a : Alert) (l : list Alert) :
  List.length (update_alert a l) = List.length l.
Proof. apply length_map. Qed.

(** The upsert once the category key is known. *)
Lemma set_custom_alert_body_updates (db : @Store num) (user_id : Z)
    (category_id : option Z) (threshold_percentage : Z)
    (email_notification : bool) (old : Alert) :
  query_first (filter (alert_key_matches user_id category_id) (alerts db))
  = Some old ->
  0 <= threshold_percentage <= 100 ->
  let updated :=
    {| a_id := a_id old; a_user_id := a_user_id old;
       a_category_id := a_category_id old;
       a_threshold_percentage := threshold_percentage;
       a_is_active := true; a_email_notification := email_notification |} in
  get_session
    (set_custom_alert_body user_id category_id threshold_percentage
       email_notification) db
  = (inr (Some updated),
     with_alerts db (update_alert updated (alerts db))).
Proof.
  intros Hq Hthr updated.
  unfold get_session, set_custom_alert_body, bind, query. simpl.
  rewrite Hq. unfold session_dirty, session_add, commit. simpl.
  replace (0 <=? threshold_percentage) with true
    by (symmetry; apply Z.leb_le; lia).
  replace (threshold_percentage <=? 100) with true
    by (symmetry; apply Z.leb_le; lia).
  reflexivity.
Qed.

(** C10. When an alert row exists for the user and the category key (the
    key of a named category, or no category), set_custom_alert rewrites
    that row in place: threshold and mail flag are overwritten, is_active
    becomes true, no row is added and no other table changes.  The
    threshold is one the alerts table admits, and category keys are the
    non-zero keys the table hands out. *)
Theorem set_custom_alert_updates_in_place (db : @Store num) (user_id : Z)
    (category_name : option string) (threshold_percentage : Z)
    (email_notification : bool) (category_id : option Z) (existing : Alert) :
  (truthy_str category_name = false /\ category_id = None)
  \/ (truthy_str category_name = true
      /\ exists category,
           found_category (string_of category_name) db = Some category
           /\ c_id category <> 0
           /\ category_id = Some (c_id category)) ->
  In existing (alerts db) ->
  a_user_id existing = user_id ->
  a_category_id existing = category_id ->
  0 <= threshold_percentage <= 100 ->
  exists old db',
    In old (alerts db)
    /\ a_user_id old = user_id
    /\ a_category_id old = category_id
    /\ let updated :=
         {| a_id := a_id old; a_user_id := user_id;
            a_category_id := category_id;
            a_threshold_percentage := threshold_percentage;
            a_is_active := true;
            a_email_notification := email_notification |} in
       set_custom_alert user_id category_name threshold_percentage
         email_notification db = (Some updated, db')
       /\ alerts db' = update_alert updated (alerts db)
       /\ In updated (alerts db')
       /\ List.length (alerts db') = List.length (alerts db)
       /\ users db' = users db /\ categories db' = categories db
       /\ budgets db' = budgets db /\ expenses db' = expenses db
       /\ groups db' = groups db /\ user_group db' = user_group db
       /\ expense_splits db' = expense_splits db.
Proof.
  intros Hkey Hin Huid Hcid Hthr.
  assert (Hm : alert_key_matches user_id category_id existing = true).
  { unfold alert_key_matches. rewrite Huid, Z.eqb_refl, Hcid. simpl.
    destruct Hkey as [[_ ->] | [_ (c & _ & Hnz & ->)]]; simpl; [reflexivity|].
    apply Z.eqb_neq in Hnz. rewrite Hnz. simpl. apply Z.eqb_refl. }
  destruct (query_first_filter_In _ _ _ Hin Hm) as (old & Hq & Hold & Hp).
  assert (Ho : a_user_id old = user_id /\ a_category_id old = category_id).
  { unfold alert_key_matches in Hp. apply andb_true_iff in Hp as [P1 P2].
    apply Z.eqb_eq in P1. split; [exact P1|].
    destruct Hkey as [[_ ->] | [_ (c & _ & Hnz & ->)]]; simpl in P2.
    - now destruct (a_category_id old).
    - apply Z.eqb_neq in Hnz. rewrite Hnz in P2. simpl in P2.
      destruct (a_category_id old) as [z|]; [|discriminate].
      simpl in P2. apply Z.eqb_eq in P2. now subst z. }
  destruct Ho as [Ho1 Ho2].
  pose proof (set_custom_alert_body_updates db user_id category_id
                threshold_percentage email_notification old Hq Hthr) as Hrun.
  rewrite Ho1, Ho2 in Hrun. simpl in Hrun.
  exists old. eexists. split; [exact Hold|]. split; [exact Ho1|].
  split; [exact Ho2|]. simpl.
  assert (Hset : set_custom_alert user_id category_name threshold_percentage
                   email_notification db
                 = (Some {| a_id := a_id old; a_user_id := user_id;
                            a_category_id := category_id;
                            a_threshold_percentage := threshold_percentage;
                            a_is_active := true;
                            a_email_notification := email_notification |},
                    with_alerts db
                      (update_alert
                         {| a_id := a_id old; a_user_id := user_id;
                            a_category_id := category_id;
                            a_threshold_percentage := threshold_percentage;
                            a_is_active := true;
                            a_email_notification := email_notification |}
                         (alerts db)))).
  { unfold set_custom_alert.
    destruct Hkey as [[Hs Hk] | [Hs (c & Hc & _ & Hk)]]; rewrite Hs.
    - rewrite <- Hk at 1. now rewrite Hrun.
    - rewrite get_category_by_name_eq. unfold found_category in Hc.
      rewrite Hc. rewrite <- Hk at 1. now rewrite Hrun. }
  split; [exact Hset|]. split; [reflexivity|].
  split; [|split; [apply update_alert_length|repeat split]].
  simpl. unfold update_alert. apply in_map_iff. exists old.
  now rewrite Z.eqb_refl.
Qed.

End AlertUpsert.

Section Conservation.

Local Open Scope Q_scope.

Lemma Qsum_ext {A : Type} (f g : A -> Q) (l : list A) :
  (forall x, In x l -> f x == g x) -> Qsum f l == Qsum g l.
Proof.
  induction l as [|x l IH]; simpl; intros H; [reflexivity|].
  rewrite (H x) by now left. rewrite IH; [reflexivity|].
  intros y I. apply H. now right.
Qed.


Lemma Qsum_map {A B : Type} (f : B -> Q) (g : A -> B) (l : list A) :
  Qsum f (map g l) = Qsum (fun x => f (g x)) l.
Proof. induction l as [|x l IH]; simpl; [reflexivity|]. now rewrite IH. Qed.








(** The running sum of the code agrees with the sum of the list. *)
Lemma fold_left_Qplus (l : list Q) (a : Q) :
  fold_left Qplus l a == a + Qsum (fun x => x) l.
Proof.
  revert a; induction l as [|x l IH]; intros a; simpl; [ring|].
  rewrite IH. ring.
Qed.

Lemma sum_left_Qsum (l : list Q) : sum_left l == Qsum (fun x => x) l.
Proof. unfold sum_left. simpl. rewrite fold_left_Qplus. ring. Qed.

Lemma option_Z_eqb_eq (a b : option Z) : option_Z_eqb a b = true <-> a = b.
Proof.
  destruct a as [x|], b as [y|]; simpl; split; try congruence.
  - intros H. apply Z.eqb_eq in H. now subst.
  - intros H. injection H as ->. apply Z.eqb_refl.
Qed.


Section Rounding.

Context {num : Type} {NUM : Number num} (val : num -> Q).







End Rounding.


End Conservation.

(** * Scenarios on the small ledger *)

Ltac distinct := repeat constructor; simpl; intuition congruence.

(** Ninety split equally among three: thirty each, asha's row paid. *)
Example ledger_equal_splits :
  expense_splits ledger_equal
  = [trip_split 1 1 30%float true; trip_split 2 2 30%float false;
     trip_split 3 3 30%float false].
Proof. reflexivity. Qed.

(** ... and the balances are +60, -30, -30. *)
Example ledger_equal_balances :
  map net_balance (group_balances ledger_equal 1)
  = [60%float; (-30)%float; (-30)%float].
Proof. reflexivity. Qed.

(** Floats drift: a hundred split among three does not come back to zero
    exactly. *)
Example float_drift :
  is_zero (sum_left (map net_balance (group_balances ledger_thirds 1)))
  = false.
Proof. reflexivity. Qed.


Example ledger_thirds_drift :
  (Qsum (fun b => float_value (net_balance b)) (group_balances ledger_thirds 1)
   == - (1 # 70368744177664))%Q.
Proof. vm_compute. reflexivity. Qed.


Lemma equal_split_one_row_per_member_witness :
  exists expense rows db',
    add_shared_expense 1 1 "Food"%string 90%float nov2026 true None
      (ledger [] [] []) = (Some expense, db')
    /\ e_amount expense = 90%float
    /\ e_user_id expense = 1
    /\ expenses db' = [] ++ [expense]
    /\ expense_splits db' = [] ++ rows
    /\ (forall r, In r rows ->
          s_expense_id r = e_id expense
          /\ s_amount r = 30%float
          /\ s_paid r = (s_user_id r =? 1))
    /\ (forall member, In member [asha; bala; chitra] ->
          List.length (filter (fun r => s_user_id r =? u_id member) rows)
          = 1%nat).
Proof.
  refine (equal_split_one_row_per_member 1 1 "Food"%string 90%float nov2026
            None (ledger [] [] []) food trip _ _ _ _ _ _ _);
    try reflexivity; try distinct.
Defined.

(** Answering no to the equal split and giving no mapping persists the
    expense with no split row at all, so with no paid row. *)
Lemma no_paid_row_counterexample :
  let r := add_shared_expense 1 1 "Food"%string 90%float nov2026 false None
             (ledger [] [] []) in
  fst r = Some (trip_expense 90%float)
  /\ expenses (snd r) = [trip_expense 90%float]
  /\ filter (fun s => (s_expense_id s =? 1) && s_paid s)
       (expense_splits (snd r)) = [].
Proof. repeat split. Qed.

Lemma paid_row_belongs_to_payer_witness :
  exists rows,
    expense_splits ledger_equal = [] ++ rows
    /\ e_user_id (trip_expense 90%float) = 1
    /\ (forall r, In r rows -> s_expense_id r = 1)
    /\ (forall r, In r rows -> s_paid r = true -> s_user_id r = 1)
    /\ List.length (filter s_paid rows) = 1%nat.
Proof.
  refine (paid_row_belongs_to_payer 1 1 "Food"%string 90%float nov2026 None
            true (ledger [] [] []) ledger_equal (trip_expense 90%float)
            _ _ _ _);
    try reflexivity; try distinct.
Defined.

(** In custom mode a group without members is no obstacle: the expense and
    the row of the mapping are persisted. *)
Lemma empty_group_custom_counterexample :
  let r := add_shared_expense 1 2 "Food"%string 50%float nov2026 false
             (Some [(1, 50%float)]) (ledger [] [] []) in
  group_members (@ledger float [] [] []) 2 = []
  /\ fst r
     = Some {| e_id := 1; e_user_id := 1; e_category_id := 1;
               e_amount := 50%float; e_date := nov2026;
               e_group_id := Some 2; e_is_shared := true |}
  /\ expense_splits (snd r) = [trip_split 1 1 50%float true].
Proof. repeat split. Qed.

Lemma add_shared_expense_rejects_witness :
  add_shared_expense 1 2 "Food"%string 50%float nov2026 true None
    (ledger [] [] []) = (None, ledger [] [] []).
Proof.
  apply add_shared_expense_rejects. left. split; reflexivity.
Defined.

(** Budget 100, spent 120: exceeded by 20, mail sent, no threshold event. *)
Lemma exceeded_takes_precedence_witness :
  exists events,
    _check_budget_alerts true
      (ledger [food_budget 100%float] [food_expense 120%float]
         [general_alert 1 10 true true]) 1 1 11 2026 = inr events
    /\ events
       = [WarnExceeded "Food"%string 120%float 100%float 20%float;
          MailExceeded "asha@example.org"%string "asha"%string "Food"%string
            120%float 100%float 20%float]
    /\ forall ev, In ev events -> is_threshold_event ev = false.
Proof.
  refine (exceeded_takes_precedence true
            (ledger [food_budget 100%float] [food_expense 120%float]
               [general_alert 1 10 true true]) 1 1 11 2026
            (food_budget 100%float) asha food _ _ _ _ _); reflexivity.
Defined.

(** Budget 100, spent 100: nothing is left, and the alert at 0 fires. *)
Lemma threshold_fires_iff_reached_witness :
  exists events,
    _check_budget_alerts false
      (ledger [food_budget 100%float] [food_expense 100%float]
         [general_alert 1 0 true false]) 1 1 11 2026 = inr events
    /\ events = [WarnThreshold "Food"%string 0%float 100%float 100%float]
    /\ List.length (filter is_threshold_warning events) = 1%nat.
Proof.
  refine (threshold_fires_iff_reached false
            (ledger [food_budget 100%float] [food_expense 100%float]
               [general_alert 1 0 true false]) 1 1 11 2026
            (food_budget 100%float) asha food _ _ _ _ _); reflexivity.
Defined.

(** Budget 100, spent 95: five percent left; the alert at 10 fires, the
    alert at 3 does not. *)
Example threshold_five_percent_left :
  _check_budget_alerts false
    (ledger [food_budget 100%float] [food_expense 95%float]
       [general_alert 1 10 true false; general_alert 2 3 true false])
    1 1 11 2026
  = inr [WarnThreshold "Food"%string 5%float 95%float 100%float].
Proof. reflexivity. Qed.

(** The division in the body of the exceeded mail is a real one: on a
    budget row of zero, which the table refuses, it would raise. *)
Example exceeded_mail_divides :
  _check_budget_alerts true
    (ledger [food_budget 0%float] [food_expense 20%float]
       [general_alert 1 10 true true]) 1 1 11 2026
  = inl ZeroDivisionError
  /\ _check_budget_alerts false
       (ledger [food_budget 0%float] [food_expense 20%float]
          [general_alert 1 10 true true]) 1 1 11 2026
     = inr [WarnExceeded "Food"%string 20%float 0%float 20%float].
Proof. split; reflexivity. Qed.


(** A switched-off alert at 10 is set to 25 without mail and comes back
    switched on; the table still has one row. *)
Lemma set_custom_alert_updates_in_place_witness :
  exists db',
    set_custom_alert 1 None 25 false
      (@ledger float [] [] [general_alert 1 10 false true])
    = (Some (general_alert 1 25 true false), db')
    /\ alerts db' = [general_alert 1 25 true false].
Proof.
  destruct (set_custom_alert_updates_in_place
              (@ledger float [] [] [general_alert 1 10 false true]) 1 None 25
              false None (general_alert 1 10 false true))
    as (old & db' & Hin & _ & _ & Hrun & Halerts & _).
  - left. split; reflexivity.
  - left. reflexivity.
  - reflexivity.
  - reflexivity.
  - lia.
  - destruct Hin as [<-|[]]. exists db'. split; [exact Hrun|].
    rewrite Halerts. reflexivity.
Defined.

(** * Further properties of the service layer *)

Section AlertUpsertMore.

Context {num : Type} {NUM : Number num}.

Variables (user_id : Z) (category_name : option string)
  (threshold_percentage : Z) (email_notification : bool).

Local Abbreviation valid_threshold :=
  ((0 <=? threshold_percentage) && (threshold_percentage <=? 100)).

(** set_custom_alert in closed form. *)
Lemma set_custom_alert_run (db : @Store num) :
  set_custom_alert user_id category_name threshold_percentage
    email_notification db
  = match resolved_key category_name db with
    | None => (None, db)
    | Some category_id =>
        if valid_threshold then
          match query_first
                  (filter (alert_key_matches user_id category_id) (alerts db))
          with
          | Some old =>
              let updated :=
                rewritten_alert old threshold_percentage email_notification in
              (Some updated, with_alerts db (update_alert updated (alerts db)))
          | None =>
              (Some {| a_id := 0; a_user_id := user_id;
                       a_category_id := category_id;
                       a_threshold_percentage := threshold_percentage;
                       a_is_active := true;
                       a_email_notification := email_notification |},
               with_alerts db
                 (alerts db
                    ++ [new_alert user_id category_id threshold_percentage
                          email_notification db]))
          end
        else (None, db)
    end.
Proof.
  unfold set_custom_alert, resolved_key.
  assert (R : forall cid,
            match get_session
                    (set_custom_alert_body user_id cid threshold_percentage
                       email_notification) db with
            | (inl _, db2) => (None, db2)
            | (inr r, db2) => (r, db2)
            end
            = if valid_threshold then
                match query_first
                        (filter (alert_key_matches user_id cid) (alerts db))
                with
                | Some old =>
                    (Some (rewritten_alert old threshold_percentage
                             email_notification),
                     with_alerts db
                       (update_alert
                          (rewritten_alert old threshold_percentage
                             email_notification) (alerts db)))
                | None =>
                    (Some {| a_id := 0; a_user_id := user_id;
                             a_category_id := cid;
                             a_threshold_percentage := threshold_percentage;
                             a_is_active := true;
                             a_email_notification := email_notification |},
                     with_alerts db
                       (alerts db
                          ++ [new_alert user_id cid threshold_percentage
                                email_notification db]))
                end
              else (None, db)).
  { intros cid.
    unfold get_session, set_custom_alert_body, bind, query. simpl.
    destruct (query_first (filter (alert_key_matches user_id cid) (alerts db)))
      as [old|]; unfold session_dirty, session_add, commit; simpl;
      destruct valid_threshold; reflexivity. }
  destruct (truthy_str category_name); [|apply R].
  rewrite get_category_by_name_eq. fold (found_category (string_of category_name) db).
  destruct (found_category (string_of category_name) db); [apply R|reflexivity].
Qed.

Lemma valid_threshold_iff :
  valid_threshold = true <-> 0 <= threshold_percentage <= 100.
Proof. rewrite andb_true_iff, !Z.leb_le. tauto. Qed.

(** The key of a category is truthy; so a row matches a resolved key
    exactly when it has the user and the key. *)
Lemma resolved_key_matches (db : @Store num) (category_id : option Z)
    (a : Alert) :
  (forall c, In c (categories db) -> c_id c <> 0) ->
  resolved_key category_name db = Some category_id ->
  alert_key_matches user_id category_id a = true
  <-> a_user_id a = user_id /\ a_category_id a = category_id.
Proof.
  intros Hnz Hk. unfold alert_key_matches. rewrite andb_true_iff, Z.eqb_eq.
  assert (K : category_id = None \/ exists z, category_id = Some z /\ z <> 0).
  { unfold resolved_key in Hk. destruct (truthy_str category_name).
    - unfold found_category in Hk.
      destruct (filter _ (categories db)) as [|c l] eqn:F; [discriminate|].
      simpl in Hk. injection Hk as <-. right. exists (c_id c). split; trivial.
      apply Hnz. apply (filter_In (fun c0 => (c_name c0 =? string_of category_name)%string)).
      rewrite F. now left.
    - injection Hk as <-. now left. }
  destruct K as [-> | (z & -> & Hz)]; simpl.
  - destruct (a_category_id a); simpl; intuition congruence.
  - apply Z.eqb_neq in Hz. rewrite Hz. simpl.
    destruct (a_category_id a) as [y|]; simpl.
    + rewrite Z.eqb_eq. intuition congruence.
    + intuition congruence.
Qed.

Lemma next_id_fresh (ids : list Z) (x : Z) : In x ids -> x < next_id ids.
Proof.
  unfold next_id. induction ids as [|y ids IH]; cbn [fold_right In];
    [contradiction|].
  intros [->|I]; [lia|]. specialize (IH I). lia.
Qed.

Lemma update_alert_twice (a : Alert) (l : list Alert) :
  update_alert a (update_alert a l) = update_alert a l.
Proof.
  unfold update_alert. rewrite map_map. apply map_ext. intros r.
  destruct (a_id r =? a_id a) eqn:E; [now rewrite Z.eqb_refl|now rewrite E].
Qed.

Lemma update_alert_absent (a : Alert) (l : list Alert) :
  (forall r, In r l -> a_id r <> a_id a) -> update_alert a l = l.
Proof.
  intros H. unfold update_alert. rewrite <- (map_id l) at 2.
  apply map_ext_in. intros r I. apply H in I. apply Z.eqb_neq in I.
  now rewrite I.
Qed.

(** After the UPDATE the first row with the key is the rewritten one. *)
Lemma first_after_update (p : Alert -> bool) (old a : Alert) (l : list Alert) :
  query_first (filter p l) = Some old ->
  p a = true -> a_id a = a_id old ->
  query_first (filter p (update_alert a l)) = Some a.
Proof.
  intros Hq Hp Hid. induction l as [|r l IH]; simpl in *; [discriminate|].
  destruct (p r) eqn:Pr.
  - simpl in Hq. injection Hq as ->. rewrite Hid, Z.eqb_refl, Hp. reflexivity.
  - destruct (a_id r =? a_id a); [now rewrite Hp|].
    rewrite Pr. now apply IH.
Qed.

Lemma first_after_insert (p : Alert -> bool) (a : Alert) (l : list Alert) :
  query_first (filter p l) = None -> p a = true ->
  query_first (filter p (l ++ [a])) = Some a.
Proof.
  intros Hq Hp. rewrite filter_app. simpl. rewrite Hp.
  destruct (filter p l); [reflexivity|discriminate].
Qed.

(** X1. With no alert row for the user and the category key, a valid call
    adds exactly one row: for that user and key, with the given threshold
    and mail flag, switched on; nothing else changes. *)
Theorem set_custom_alert_creates (db : @Store num) (category_id : option Z) :
  (forall c, In c (categories db) -> c_id c <> 0) ->
  resolved_key category_name db = Some category_id ->
  (forall a, In a (alerts db) ->
     ~ (a_user_id a = user_id /\ a_category_id a = category_id)) ->
  0 <= threshold_percentage <= 100 ->
  exists a db',
    set_custom_alert user_id category_name threshold_percentage
      email_notification db = (Some a, db')
    /\ alerts db'
       = alerts db
         ++ [new_alert user_id category_id threshold_percentage
               email_notification db]
    /\ users db' = users db /\ categories db' = categories db
    /\ budgets db' = budgets db /\ expenses db' = expenses db
    /\ groups db' = groups db /\ user_group db' = user_group db
    /\ expense_splits db' = expense_splits db.
Proof.
  intros Hnz Hk Hnone Hthr. rewrite set_custom_alert_run, Hk.
  apply valid_threshold_iff in Hthr. rewrite Hthr.
  destruct (query_first
              (filter (alert_key_matches user_id category_id) (alerts db)))
    as [old|] eqn:Hq.
  - exfalso. destruct (filter _ (alerts db)) as [|r l] eqn:F; [discriminate|].
    injection Hq as ->.
    assert (I : In old (filter (alert_key_matches user_id category_id)
                          (alerts db))) by (rewrite F; now left).
    apply filter_In in I as [I M].
    apply (resolved_key_matches db category_id old Hnz Hk) in M.
    exact (Hnone old I M).
  - eexists. eexists. split; [reflexivity|]. repeat split.
Qed.

(** X2. A call naming an unknown category, or giving a threshold outside
    0..100, returns None and leaves the store as it was. *)
Theorem set_custom_alert_rejects (db : @Store num) :
  resolved_key category_name db = None
  \/ ~ (0 <= threshold_percentage <= 100) ->
  set_custom_alert user_id category_name threshold_percentage
    email_notification db = (None, db).
Proof.
  intros H. rewrite set_custom_alert_run.
  destruct (resolved_key category_name db) as [cid|]; [|reflexivity].
  destruct H as [H|H]; [discriminate|].
  destruct valid_threshold eqn:V; [|reflexivity].
  apply valid_threshold_iff in V. contradiction.
Qed.

(** The store a successful call leaves and the row it leaves under the key. *)
Lemma set_custom_alert_leaves (db db' : @Store num) (a : Alert) :
  (forall c, In c (categories db) -> c_id c <> 0) ->
  set_custom_alert user_id category_name threshold_percentage
    email_notification db = (Some a, db') ->
  exists category_id row,
    resolved_key category_name db = Some category_id
    /\ valid_threshold = true
    /\ categories db' = categories db
    /\ query_first
         (filter (alert_key_matches user_id category_id) (alerts db'))
       = Some row
    /\ rewritten_alert row threshold_percentage email_notification = row
    /\ a_user_id row = user_id
    /\ update_alert row (alerts db') = alerts db'.
Proof.
  intros Hnz. rewrite set_custom_alert_run.
  destruct (resolved_key category_name db) as [cid|] eqn:Hk; [|discriminate].
  destruct valid_threshold eqn:V; [|discriminate].
  destruct (query_first (filter (alert_key_matches user_id cid) (alerts db)))
    as [old|] eqn:Hq; intros E; injection E as <- <-.
  - assert (M : alert_key_matches user_id cid old = true).
    { destruct (filter _ (alerts db)) as [|r l] eqn:F; [discriminate|].
      injection Hq as ->.
      apply (filter_In (alert_key_matches user_id cid) old (alerts db)).
      rewrite F. now left. }
    exists cid, (rewritten_alert old threshold_percentage email_notification).
    repeat split; trivial.
    + simpl. apply (first_after_update _ old); trivial.
    + apply (resolved_key_matches db cid old Hnz Hk) in M. apply M.
    + simpl. apply update_alert_twice.
  - set (row := new_alert user_id cid threshold_percentage email_notification
                  db).
    assert (M : alert_key_matches user_id cid row = true).
    { apply (resolved_key_matches db cid row Hnz Hk). now split. }
    exists cid, row. repeat split; trivial.
    + simpl. now apply first_after_insert.
    + simpl. unfold update_alert. rewrite map_app. simpl.
      rewrite Z.eqb_refl. f_equal.
      apply (update_alert_absent row). intros r I.
      apply (in_map a_id) in I. apply next_id_fresh in I.
      unfold row, new_alert. simpl. lia.
Qed.

(** X3. What set_custom_alert stores can be read back: after a successful
    call the first row under the user's key has the given threshold and
    mail flag and is switched on. *)
Theorem set_custom_alert_then_lookup (db db' : @Store num) (a : Alert) :
  (forall c, In c (categories db) -> c_id c <> 0) ->
  set_custom_alert user_id category_name threshold_percentage
    email_notification db = (Some a, db') ->
  exists category_id row,
    resolved_key category_name db = Some category_id
    /\ query_first
         (filter (alert_key_matches user_id category_id) (alerts db'))
       = Some row
    /\ a_user_id row = user_id
    /\ a_threshold_percentage row = threshold_percentage
    /\ a_email_notification row = email_notification
    /\ a_is_active row = true.
Proof.
  intros Hnz Hrun.
  destruct (set_custom_alert_leaves db db' a Hnz Hrun)
    as (cid & row & Hk & _ & _ & Hq & Hrow & Hu & _).
  exists cid, row. repeat split; trivial; rewrite <- Hrow; reflexivity.
Qed.

(** X4. The upsert is idempotent: repeating a call on the store it left
    changes nothing, so a key never gets a second row. *)
Theorem set_custom_alert_idempotent (db : @Store num) :
  (forall c, In c (categories db) -> c_id c <> 0) ->
  let db' := snd (set_custom_alert user_id category_name threshold_percentage
                    email_notification db) in
  snd (set_custom_alert user_id category_name threshold_percentage
         email_notification db') = db'.
Proof.
  intros Hnz db'.
  destruct (set_custom_alert user_id category_name threshold_percentage
              email_notification db) as [[a|] d] eqn:Hrun; subst db'; simpl.
  - destruct (set_custom_alert_leaves db d a Hnz Hrun)
      as (cid & row & Hk & V & Hc & Hq & Hrow & _ & Hupd).
    rewrite set_custom_alert_run.
    assert (Hk' : resolved_key category_name d = Some cid).
    { unfold resolved_key, found_category in *. now rewrite Hc. }
    rewrite Hk', V, Hq. simpl. rewrite Hrow, Hupd.
    destruct d; reflexivity.
  - assert (d = db).
    { rewrite set_custom_alert_run in Hrun.
      destruct (resolved_key category_name db) as [cid|];
        [|now injection Hrun].
      destruct valid_threshold; [|now injection Hrun].
      destruct (query_first _); discriminate. }
    subst d. now rewrite Hrun.
Qed.

End AlertUpsertMore.

Section EvaluatorMore.

Context {num : Type} {NUM : Number num}.

Lemma threshold_loop_Forall (Q : @event num -> Prop)
    (step : Alert -> exn + list event) (l : list Alert) (evs : list event) :
  (forall a out, In a l -> step a = inr out -> Forall Q out) ->
  threshold_loop step l = inr evs ->
  Forall Q evs.
Proof.
  revert evs. induction l as [|a l IH]; simpl; intros evs H E.
  - injection E as <-. constructor.
  - destruct (step a) as [e|out] eqn:S; [discriminate|].
    destruct (threshold_loop step l) as [e|rest]; [discriminate|].
    injection E as <-. apply Forall_app. split.
    + apply (H a); [now left|exact S].
    + apply IH; [|reflexivity]. intros b out' Ib. apply H. now right.
Qed.

(** X5. The evaluation mails only when mail is configured and some active
    alert of the user that applies to the category asks for mail. *)
Theorem mail_only_when_asked (email_configured : bool) (db : @Store num)
    (user_id category_id month year : Z) (events : list event) (ev : event) :
  _check_budget_alerts email_configured db user_id category_id month year
  = inr events ->
  In ev events ->
  is_mail_event ev = true ->
  email_configured = true
  /\ exists a,
       In a (alerts db)
       /\ alert_applies user_id category_id a = true
       /\ a_email_notification a = true.
Proof.
  unfold _check_budget_alerts.
  destruct (found_budget db user_id category_id month year) as [budget|].
  2:{ intros E. injection E as <-. contradiction. }
  destruct (ltb (b_amount budget)
              (total_spent db user_id category_id month year)).
  - destruct (found_category_id db category_id) as [c|]; simpl;
      [|discriminate].
    destruct (filter
                (fun a => alert_applies user_id category_id a
                          && a_email_notification a) (alerts db))
      as [|a l] eqn:F; simpl.
    + intros E. injection E as <-. intros [<-|[]]. discriminate.
    + destruct email_configured.
      * intros _ _ _. split; [reflexivity|]. exists a.
        assert (I : In a (filter
                            (fun a => alert_applies user_id category_id a
                                      && a_email_notification a) (alerts db)))
          by (rewrite F; now left).
        apply filter_In in I as [I M]. apply andb_true_iff in M. tauto.
      * intros E. injection E as <-. intros [<-|[]]. discriminate.
  - destruct (div_num _ _) as [e|ratio]; [discriminate|].
    intros E I M.
    apply (threshold_loop_Forall
             (fun ev => is_mail_event ev = true ->
                        email_configured = true
                        /\ exists a,
                             In a (alerts db)
                             /\ alert_applies user_id category_id a = true
                             /\ a_email_notification a = true)) in E.
    + rewrite Forall_forall in E. now apply (E ev).
    + intros a out Ia S. apply filter_In in Ia as [Ia Ma].
      unfold threshold_step in S.
      destruct (leb _ _); [|injection S as <-; constructor].
      destruct (found_category_id db category_id) as [c|]; simpl in S;
        [|discriminate].
      destruct (a_email_notification a) eqn:Em; simpl in S.
      * destruct email_configured; simpl in S.
        -- destruct (found_user db user_id); [|discriminate].
           injection S as <-.
           apply Forall_cons; [intros X; discriminate X|].
           apply Forall_cons; [|constructor].
           intros _. split; [reflexivity|]. exists a. auto.
        -- injection S as <-.
           apply Forall_cons; [intros X; discriminate X|constructor].
      * injection S as <-.
        apply Forall_cons; [intros X; discriminate X|constructor].
Qed.

Lemma flat_map_nil {A B : Type} (f : A -> list B) (l : list A) :
  (forall x, In x l -> f x = []) -> flat_map f l = [].
Proof.
  induction l as [|x l IH]; simpl; intros H; [reflexivity|].
  rewrite (H x) by now left. apply IH. intros y I. apply H. now right.
Qed.

(** X6. A group none of whose expenses are shared with it has no balances:
    the engine returns the empty list and touches nothing. *)
Theorem get_group_balances_empty (db : @Store num) (group_id : Z) :
  (forall e, In e (expenses db) -> e_group_id e <> Some group_id) ->
  get_group_balances group_id db = (inr [], db).
Proof.
  intros H.
  assert (R : group_splits db group_id = []).
  { unfold group_splits. apply flat_map_nil. intros s _.
    assert (Fe : filter
                   (fun e : @Expense num =>
                      (s_expense_id s =? e_id e)
                      && option_Z_eqb (e_group_id e) (Some group_id))
                   (expenses db) = []); [|now rewrite Fe].
    apply filter_none.
    intros e I. apply andb_false_iff. right.
    destruct (option_Z_eqb (e_group_id e) (Some group_id)) eqn:G; trivial.
    apply option_Z_eqb_eq in G. now destruct (H e I). }
  unfold get_group_balances, get_session, query, commit. simpl.
  unfold group_balances. now rewrite R.
Qed.

End EvaluatorMore.

Section JoinedRows.

Context {num : Type}.

Lemma expense_rows_eq (db : @Store num) (e : Expense) :
  expense_rows db e = rows_for (users db) e (expense_splits db).
Proof. reflexivity. Qed.

Lemma rows_for_app (us : list User) (e : @Expense num)
    (l l' : list ExpenseSplit) :
  rows_for us e (l ++ l') = rows_for us e l ++ rows_for us e l'.
Proof. apply flat_map_app. Qed.

Lemma rows_for_none (us : list User) (e : @Expense num)
    (l : list ExpenseSplit) :
  (forall s, In s l -> s_expense_id s <> e_id e) -> rows_for us e l = [].
Proof.
  intros H. apply flat_map_nil. intros s I. apply H in I.
  apply Z.eqb_neq in I. now rewrite I.
Qed.

(** When every split row is the expense's and meets exactly one user, the
    join gives the split rows back, one joined row each. *)
Lemma rows_for_all (us : list User) (e : @Expense num)
    (l : list ExpenseSplit) :
  (forall s, In s l ->
     s_expense_id s = e_id e
     /\ exists u, filter (fun u => s_user_id s =? u_id u) us = [u]) ->
  map (fun r : @row num => fst (fst r)) (rows_for us e l) = l.
Proof.
  induction l as [|s l IH]; intros H; [reflexivity|].
  destruct (H s (or_introl eq_refl)) as (He & u & Hu).
  unfold rows_for in *. cbn [flat_map]. rewrite He, Z.eqb_refl, Hu.
  cbn [map app fst]. f_equal. apply IH. intros t I. apply H. now right.
Qed.

(** A user id that is a primary key selects its user and nobody else. *)
Lemma single_user (us : list User) (m : User) :
  NoDup (map u_id us) -> In m us ->
  filter (fun u => u_id m =? u_id u) us = [m].
Proof.
  induction us as [|x us IH]; simpl; intros Hnd Hin; [contradiction|].
  inversion Hnd as [|? ? Hx Hus]; subst.
  destruct Hin as [->|Hin].
  - rewrite Z.eqb_refl. f_equal. apply filter_none. intros u I.
    apply Z.eqb_neq. intros E. apply Hx. rewrite E. now apply in_map.
  - assert (N : u_id m <> u_id x).
    { intros E. apply Hx. rewrite <- E. now apply in_map. }
    apply Z.eqb_neq in N. rewrite N. now apply IH.
Qed.

Lemma group_members_users (db : @Store num) (group_id : Z) (m : User) :
  In m (group_members db group_id) -> In m (users db).
Proof.
  unfold group_members. intros I. apply order_by_In in I.
  apply in_flat_map in I as ([u g] & _ & I).
  simpl in I. destruct (g =? group_id); [|contradiction].
  now apply filter_In in I.
Qed.

End JoinedRows.

Section LedgerBalance.

Context {num : Type} {NUM : Number num}.

Variables (user_id group_id : Z) (category_name : string) (amount : num)
  (now : datetime) (custom_splits : option (list (Z * num))).

(** X8. An equal split paid by a member keeps the ledger well formed, in
    any arithmetic: if every group expense had exactly one row flagged
    paid and every split row pointed at a stored expense, the same holds
    after the call (the new expense's one paid row being the payer's). *)
Theorem equal_split_keeps_one_payer (db db' : @Store num)
    (expense : @Expense num) :
  single_payer db ->
  referential db ->
  NoDup (map u_id (users db)) ->
  NoDup (user_group db) ->
  In user_id (map u_id (group_members db group_id)) ->
  add_shared_expense user_id group_id category_name amount now true
    custom_splits db = (Some expense, db') ->
  single_payer db' /\ referential db'.
Proof.
  intros Hrec Hfk Hu Hug Hpayer Hrun.
  destruct (add_shared_expense_cases user_id group_id category_name amount
              now custom_splits true db)
    as [E | (category & group & rows & _ & _ & _ & Hmem & F & E)];
    rewrite E in Hrun; [discriminate|].
  injection Hrun as <- <-.
  set (e := inserted_expense user_id group_id amount now category db).
  set (members := group_members db group_id).
  assert (Hrows : forall r, In r rows ->
            s_expense_id r = e_id e
            /\ exists m, In m members /\ s_user_id r = u_id m).
  { intros r I. destruct (split_fields_In _ _ r F I) as (s0 & I0 & Es).
    injection Es as E1 E2 _ _. rewrite E1, E2.
    unfold planned_rows, equal_rows in I0.
    apply in_map_iff in I0 as (m & <- & Im). split; [reflexivity|].
    now exists m. }
  assert (Hold : forall e0, In e0 (expenses db) -> e_id e0 < e_id e).
  { intros e0 I. apply (in_map e_id) in I. now apply next_id_fresh in I. }
  split.
  - intros e0 g0 Hin Hg. unfold one_payer.
    rewrite expense_rows_eq. simpl users. simpl expense_splits.
    rewrite rows_for_app. simpl in Hin. apply in_app_iff in Hin.
    destruct Hin as [Hin|[<-|[]]].
    + rewrite (rows_for_none (users db) e0 rows), app_nil_r.
      * exact (Hrec e0 g0 Hin Hg).
      * intros r I. destruct (Hrows r I) as [Hr _]. rewrite Hr.
        specialize (Hold e0 Hin). lia.
    + fold e. rewrite (rows_for_none (users db) e (expense_splits db)).
      2:{ intros s0 I. apply Hfk in I. apply in_map_iff in I as (e1 & <- & I).
          specialize (Hold e1 I). lia. }
      simpl app.
      assert (J : map (fun r : @row num => fst (fst r))
                    (rows_for (users db) e rows) = rows).
      { apply rows_for_all. intros r I. destruct (Hrows r I) as (Hr & m & Im & Hm).
        split; [exact Hr|]. exists m. rewrite Hm.
        apply single_user; [exact Hu|].
        now apply (group_members_users db group_id). }
      transitivity (List.length (filter s_paid rows)).
      { rewrite <- J at 2. now rewrite filter_map_comm, length_map. }
      transitivity
        (List.length
           (filter s_paid
              (planned_rows user_id group_id amount now custom_splits true
                 category db))).
      { exact (length_filter_map split_fields split_fields (fun t => snd t)
                 rows _ F). }
      unfold planned_rows, equal_rows.
      transitivity
        (List.length
           (filter (fun x => x =? user_id) (map u_id members))).
      { rewrite !filter_map_comm, !length_map. reflexivity. }
      rewrite count_key_NoDup by now apply group_members_NoDup.
      assert (X : existsb (fun x => x =? user_id) (map u_id members) = true).
      { apply existsb_exists. exists user_id. split; [exact Hpayer|].
        apply Z.eqb_refl. }
      now rewrite X.
  - intros s0 I. simpl in *. rewrite map_app, in_app_iff.
    apply in_app_iff in I as [I|I].
    + left. now apply Hfk.
    + right. destruct (Hrows s0 I) as [Hr _]. rewrite Hr. now left.
Qed.

End LedgerBalance.

Section AddExpense.

Context {num : Type} {NUM : Number num}.

Variables (email_configured : bool) (user_id : Z) (category_name : string)
  (amount : num) (date : option datetime) (now : datetime).

Local Abbreviation day := (date_or_now date now).

(** The store once the expense of [add_expense] is inserted. *)
Lemma add_expense_run (db : @Store num) :
  add_expense email_configured user_id category_name amount date now db
  = match found_category category_name db with
    | None => (None, db)
    | Some category =>
        let e :=
          set_expense_id (personal_expense user_id category amount day)
            (next_id (map e_id (expenses db))) in
        let db' := with_expenses db (expenses db ++ [e]) in
        if ltb (of_Z 0) amount then
          match _check_budget_alerts email_configured db' user_id
                  (c_id category) (dt_month day) (dt_year day) with
          | inl _ => (None, db)
          | inr events => (Some (e, events), db')
          end
        else (None, db)
    end.
Proof.
  unfold add_expense. rewrite get_category_by_name_eq.
  fold (found_category category_name db).
  destruct (found_category category_name db) as [category|]; [|reflexivity].
  unfold get_session, add_expense_body, add_flush_expense.
  unfold bind at 1. unfold bind at 1. unfold query at 1. simpl.
  unfold bind at 1. unfold session_add at 1. simpl.
  unfold bind at 1. unfold session_flush. simpl.
  destruct (ltb (of_Z 0) amount); [|reflexivity].
  simpl. unfold bind, query, lift, ret, raise. simpl.
  destruct (_check_budget_alerts _ _ _ _ _ _); reflexivity.
Qed.

(** X9. add_expense is all or nothing: it returns None and leaves the store
    as it was, or it appends exactly the personal expense (no group, not
    shared, with the next key) and reports the events of the budget check
    run on the store that already holds it. *)
Theorem add_expense_all_or_nothing (db : @Store num) :
  add_expense email_configured user_id category_name amount date now db
  = (None, db)
  \/ exists category expense events db',
       found_category category_name db = Some category
       /\ add_expense email_configured user_id category_name amount date now
            db = (Some (expense, events), db')
       /\ expense
          = {| e_id := next_id (map e_id (expenses db)); e_user_id := user_id;
               e_category_id := c_id category; e_amount := amount;
               e_date := day; e_group_id := None; e_is_shared := false |}
       /\ db' = with_expenses db (expenses db ++ [expense])
       /\ _check_budget_alerts email_configured db' user_id (c_id category)
            (dt_month day) (dt_year day) = inr events.
Proof.
  rewrite add_expense_run.
  destruct (found_category category_name db) as [category|]; [|now left].
  cbv zeta. destruct (ltb (of_Z 0) amount); [|now left].
  destruct (_check_budget_alerts _ _ _ _ _ _) as [e|events] eqn:C;
    [now left|right].
  exists category. eexists. exists events. eexists.
  split; [reflexivity|]. split; [reflexivity|].
  split; [reflexivity|]. split; [reflexivity|]. exact C.
Qed.



(** X11. A valid expense is never lost to the budget check: when the
    category exists, the amount is positive, the user has a row and every
    stored budget has a non-zero amount (the CHECK on budgets), add_expense
    succeeds, whatever alerts are stored and whether or not mail is
    configured. *)
Theorem add_expense_succeeds (db : @Store num) (category : Category) :
  found_category category_name db = Some category ->
  found_user db user_id <> None ->
  ltb (of_Z 0) amount = true ->
  (forall b, In b (budgets db) -> is_zero (b_amount b) = false) ->
  exists expense events db',
    add_expense email_configured user_id category_name amount date now db
    = (Some (expense, events), db')
    /\ expenses db' = expenses db ++ [expense]
    /\ e_amount expense = amount.
Proof.
  intros Hc Hu Hpos Hbudgets. rewrite add_expense_run, Hc. cbv zeta.
  rewrite Hpos.
  set (e := set_expense_id (personal_expense user_id category amount day)
              (next_id (map e_id (expenses db)))).
  set (db' := with_expenses db (expenses db ++ [e])).
  assert (Hcat : exists c', found_category_id db' (c_id category) = Some c').
  { unfold found_category, found_category_id in *. simpl categories.
    destruct (filter _ (categories db)) as [|c0 l] eqn:F; [discriminate|].
    injection Hc as ->.
    assert (I : In category (categories db)).
    { apply (filter_In (fun c => (c_name c =? category_name)%string)).
      rewrite F. now left. }
    destruct (filter (fun c => c_id c =? c_id category) (categories db))
      as [|c1 l1] eqn:G.
    - exfalso.
      assert (X : In category
                    (filter (fun c => c_id c =? c_id category)
                       (categories db)))
        by (apply filter_In; split; [exact I|apply Z.eqb_refl]).
      rewrite G in X. contradiction.
    - now exists c1. }
  destruct Hcat as (c' & Hcat).
  assert (Huser : exists u, found_user db' user_id = Some u).
  { change (found_user db' user_id) with (found_user db user_id).
    destruct (found_user db user_id) as [u|]; [now exists u|congruence]. }
  destruct Huser as (u & Huser).
  assert (R : exists events,
            _check_budget_alerts email_configured db' user_id (c_id category)
              (dt_month day) (dt_year day) = inr events).
  { unfold _check_budget_alerts.
    destruct (found_budget db' user_id (c_id category) (dt_month day)
                (dt_year day)) as [budget|] eqn:B; [|now eexists].
    assert (Z : is_zero (b_amount budget) = false).
    { apply Hbudgets. unfold found_budget in B. simpl budgets in B.
      destruct (filter _ (budgets db)) as [|b0 l] eqn:F; [discriminate|].
      injection B as ->.
      eapply proj1. apply filter_In. rewrite F. now left. }
    rewrite Hcat, Huser.
    unfold send_budget_exceeded_alert, div_num. rewrite Z.
    destruct (ltb (b_amount budget)
                (total_spent db' user_id (c_id category) (dt_month day)
                   (dt_year day))).
    - simpl. destruct (truthy_list _ && email_configured)%bool; now eexists.
    - rewrite (threshold_loop_total _ _ _
                 (threshold_step_found email_configured db' user_id
                    (c_id category) (dt_month day) (dt_year day) u c'
                    (b_amount budget) _)).
      now eexists. }
  destruct R as (events & R). rewrite R.
  exists e, events, db'. repeat split.
Qed.

End AddExpense.

Section AddExpenseExact.

Local Open Scope Q_scope.

Lemma Q_ltb_spec (x y : Q) : ltb x y = true <-> x < y.
Proof.
  simpl. rewrite negb_true_iff. split.
  - intros H. apply Qnot_le_lt. intros L. apply Qle_bool_iff in L. congruence.
  - intros H. destruct (Qle_bool y x) eqn:L; [|reflexivity].
    apply Qle_bool_iff in L. exfalso. exact (Qlt_not_le _ _ H L).
Qed.

Lemma Q_is_zero_spec (x : Q) : is_zero x = true <-> x == 0.
Proof. simpl. apply Qeq_bool_iff. Qed.

End AddExpenseExact.

Section MonthlyReport.

Context {num : Type} {NUM : Number num}.








Lemma budget_comparison_total (spending : list (string * num))
    (l : list (@Budget num * string)) :
  (forall x : num, ltb (of_Z 0) x = true -> is_zero x = false) ->
  exists lines, budget_comparison spending l = inr lines.
Proof.
  intros Hlaw. induction l as [|[b n] l (rest & IH)]; simpl; [now eexists|].
  unfold percentage_used, div_num.
  destruct (ltb (of_Z 0) (b_amount b)) eqn:P.
  - rewrite (Hlaw _ P), IH. now eexists.
  - rewrite IH. now eexists.
Qed.

(** X12. The monthly report divides only by positive budgets: when a
    positive number is not zero (as for rationals and for floats), the
    report never raises, for any store, and leaves the store untouched. *)
Theorem get_monthly_report_total (user_id : Z) (month year : option Z)
    (now : datetime) (db : @Store num) :
  (forall x : num, ltb (of_Z 0) x = true -> is_zero x = false) ->
  exists report,
    get_monthly_report user_id month year now db = (inr report, db)
    /\ (rep_month report, rep_year report) = month_year month year now.
Proof.
  intros Hlaw. unfold get_monthly_report.
  destruct (month_year month year now) as [m y].
  unfold get_session, bind, query, lift, monthly_report. simpl.
  destruct (budget_comparison_total (category_spending db user_id m y)
              (month_budgets db user_id m y) Hlaw) as (lines & E).
  rewrite E. simpl. eexists. split; reflexivity.
Qed.

(** The line of the budget comparison for budget [b] of category [c]. *)
Local Abbreviation line_of b c spent line :=
  (cmp_category line = c_name c
   /\ cmp_budget line = b_amount b
   /\ cmp_spent line = spent
   /\ cmp_remaining line = sub (b_amount b) spent).


End MonthlyReport.

Section Accounts.

Context {num : Type} {NUM : Number num}.

Lemma with_categories_same (db : @Store num) :
  with_categories db (categories db) = db.
Proof. destruct db; reflexivity. Qed.

(** *** create_user *)

Lemma create_user_run (default_threshold : Z) (email_configured : bool)
    (username email : string) (db : @Store num) :
  create_user default_threshold email_configured username email db
  = if fresh_user username email db
       && ((0 <=? default_threshold) && (default_threshold <=? 100))
    then
      let i := next_id (map u_id (users db)) in
      (Some {| u_id := i; u_username := username; u_email := email |},
       with_alerts
         (with_users db
            (users db
               ++ [{| u_id := i; u_username := username; u_email := email |}]))
         (alerts db
            ++ [{| a_id := next_id (map a_id (alerts db)); a_user_id := i;
                   a_category_id := None;
                   a_threshold_percentage := default_threshold;
                   a_is_active := true;
                   a_email_notification := email_configured |}]))
    else (None, db).
Proof.
  unfold create_user, get_session', create_user_body, fresh_user.
  unfold work_bind at 1. unfold work_query at 1. simpl.
  unfold work_bind at 1. unfold work_add at 1. simpl.
  unfold work_bind at 1. unfold work_flush at 1. simpl.
  destruct (negb (existsb (fun r => (u_username r =? username)%string) (users db))
            && negb (existsb (fun r => (u_email r =? email)%string) (users db)));
    [|reflexivity].
  simpl. unfold work_bind at 1. unfold work_add at 1. simpl.
  unfold work_bind at 1. unfold work_flush at 1. simpl.
  destruct ((0 <=? default_threshold) && (default_threshold <=? 100));
    reflexivity.
Qed.

(** X14. A user name or an e-mail address that is already taken makes
    create_user fail: it returns None and stores neither the user nor the
    default alert. *)
Theorem create_user_rejects_taken (default_threshold : Z)
    (email_configured : bool) (username email : string) (db : @Store num)
    (other : User) :
  In other (users db) ->
  u_username other = username \/ u_email other = email ->
  create_user default_threshold email_configured username email db
  = (None, db).
Proof.
  intros Hin Htaken. rewrite create_user_run.
  assert (F : fresh_user username email db = false).
  { unfold fresh_user. apply andb_false_iff.
    destruct Htaken as [E|E]; [left|right]; apply negb_false_iff;
      apply existsb_exists; exists other; (split; [exact Hin|]);
      rewrite E; apply String.eqb_refl. }
  now rewrite F.
Qed.

(** X15. With a new name and a new address (and a default threshold the
    alerts table admits) create_user stores exactly one user row, keyed
    next, and one switched-on alert on all categories for that user with
    the default threshold; it returns the user with its key. *)
Theorem create_user_adds_user_and_alert (default_threshold : Z)
    (email_configured : bool) (username email : string) (db : @Store num) :
  (forall r, In r (users db) ->
     u_username r <> username /\ u_email r <> email) ->
  0 <= default_threshold <= 100 ->
  exists user db',
    create_user default_threshold email_configured username email db
    = (Some user, db')
    /\ user = {| u_id := next_id (map u_id (users db));
                 u_username := username; u_email := email |}
    /\ users db' = users db ++ [user]
    /\ alerts db'
       = alerts db
         ++ [{| a_id := next_id (map a_id (alerts db));
                a_user_id := u_id user; a_category_id := None;
                a_threshold_percentage := default_threshold;
                a_is_active := true;
                a_email_notification := email_configured |}]
    /\ categories db' = categories db /\ budgets db' = budgets db
    /\ expenses db' = expenses db /\ groups db' = groups db
    /\ user_group db' = user_group db
    /\ expense_splits db' = expense_splits db.
Proof.
  intros Hfresh Hthr. rewrite create_user_run.
  assert (F : fresh_user username email db = true).
  { unfold fresh_user. apply andb_true_iff.
    split; apply negb_true_iff;
      (destruct (existsb _ (users db)) eqn:E; [|reflexivity]);
      apply existsb_exists in E as (r & I & E);
      apply String.eqb_eq in E; destruct (Hfresh r I); congruence. }
  rewrite F.
  replace (0 <=? default_threshold) with true
    by (symmetry; apply Z.leb_le; lia).
  replace (default_threshold <=? 100) with true
    by (symmetry; apply Z.leb_le; lia).
  simpl. eexists. eexists. split; [reflexivity|]. repeat split.
Qed.

(** X16. The alert create_user stores is the one set_custom_alert finds:
    for a user made by create_user, setting the alert on all categories
    never adds a row, whatever threshold and mail flag are given. *)
Theorem created_user_keeps_one_general_alert (default_threshold : Z)
    (email_configured : bool) (username email : string) (db db' : @Store num)
    (user : User) (threshold_percentage : Z) (email_notification : bool) :
  create_user default_threshold email_configured username email db
  = (Some user, db') ->
  List.length
    (alerts
       (snd (set_custom_alert (u_id user) None threshold_percentage
               email_notification db')))
  = List.length (alerts db').
Proof.
  rewrite create_user_run.
  destruct (fresh_user username email db && _); [|discriminate].
  cbv zeta. intros E. injection E as <- <-.
  rewrite set_custom_alert_run. unfold resolved_key. simpl truthy_str. cbv iota.
  destruct ((0 <=? threshold_percentage) && (threshold_percentage <=? 100));
    [|reflexivity].
  set (i := next_id (map u_id (users db))).
  set (a := {| a_id := next_id (map a_id (alerts db)); a_user_id := i;
               a_category_id := None;
               a_threshold_percentage := default_threshold;
               a_is_active := true;
               a_email_notification := email_configured |}).
  simpl alerts.
  destruct (query_first_filter_In (alert_key_matches i None) (alerts db ++ [a]) a)
    as (old & Hq & _ & _).
  - apply in_app_iff. right. now left.
  - unfold alert_key_matches. simpl. now rewrite Z.eqb_refl.
  - rewrite Hq. simpl. apply update_alert_length.
Qed.

(** *** create_category and initialize_default_categories *)

Lemma create_category_run (name : string) (db : @Store num) :
  create_category name db
  = if has_category name db then (None, db)
    else (Some {| c_id := next_id (map c_id (categories db)); c_name := name |},
          ensure_category name db).
Proof.
  unfold create_category, get_session', ensure_category, has_category.
  unfold work_bind, work_query, work_add, work_ret. simpl.
  destruct (existsb _ (categories db)); reflexivity.
Qed.

Lemma found_category_has (name : string) (db : @Store num) :
  found_category name db <> None <-> has_category name db = true.
Proof.
  unfold found_category, has_category. rewrite existsb_exists. split.
  - destruct (filter _ (categories db)) as [|c l] eqn:F;
      [simpl; intros H; now destruct H|].
    intros _. exists c.
    apply (filter_In (fun c0 => String.eqb (c_name c0) name)).
    rewrite F. now left.
  - intros (c & I & E).
    assert (X : In c (filter (fun c0 => String.eqb (c_name c0) name)
                        (categories db))) by (apply filter_In; now split).
    destruct (filter _ (categories db)); [contradiction|discriminate].
Qed.

Lemma initialize_step (name : string) (names : list string) (db : @Store num) :
  initialize_categories (name :: names) db
  = initialize_categories names (ensure_category name db).
Proof.
  cbn [initialize_categories]. rewrite get_category_by_name_eq.
  fold (found_category name db). unfold ensure_category.
  destruct (found_category name db) as [c|] eqn:F.
  - assert (H : has_category name db = true)
      by (apply found_category_has; congruence).
    now rewrite H.
  - assert (H : has_category name db = false).
    { destruct (has_category name db) eqn:H; [|reflexivity].
      apply found_category_has in H. congruence. }
    rewrite create_category_run, H. simpl. unfold ensure_category.
    now rewrite H.
Qed.

Lemma has_category_ensure (name other : string) (db : @Store num) :
  has_category name (ensure_category other db)
  = has_category name db || (negb (has_category other db) && String.eqb other name).
Proof.
  unfold ensure_category. destruct (has_category other db) eqn:H; simpl.
  - now rewrite orb_false_r.
  - unfold has_category. simpl. rewrite existsb_app. simpl.
    now rewrite orb_false_r.
Qed.

Lemma has_category_initialize (name : string) (names : list string)
    (db : @Store num) :
  has_category name db = true ->
  has_category name (initialize_categories names db) = true.
Proof.
  revert db. induction names as [|n names IH]; intros db H; [exact H|].
  rewrite initialize_step. apply IH. rewrite has_category_ensure, H.
  reflexivity.
Qed.

Lemma initialize_all_present (names : list string) (db : @Store num) :
  (forall n, In n names -> has_category n db = true) ->
  initialize_categories names db = db.
Proof.
  induction names as [|n names IH]; intros H; [reflexivity|].
  rewrite initialize_step. unfold ensure_category.
  rewrite (H n) by now left. apply IH. intros m I. apply H. now right.
Qed.

Lemma initialize_covers (names : list string) (db : @Store num) (n : string) :
  In n names -> has_category n (initialize_categories names db) = true.
Proof.
  revert db. induction names as [|m names IH]; intros db I; [contradiction|].
  rewrite initialize_step. destruct I as [->|I]; [|now apply IH].
  apply has_category_initialize. rewrite has_category_ensure.
  destruct (has_category n db); simpl; [reflexivity|apply String.eqb_refl].
Qed.

Lemma ensure_category_names (name : string) (db : @Store num) :
  NoDup (map c_name (categories db)) ->
  NoDup (map c_name (categories (ensure_category name db))).
Proof.
  intros H. unfold ensure_category.
  destruct (has_category name db) eqn:E; [exact H|].
  simpl. rewrite map_app. simpl.
  apply NoDup_app; [exact H|repeat constructor; auto|].
  intros n I [<-|[]]. apply in_map_iff in I as (c & Ec & I).
  assert (X : has_category (c_name c) db = true).
  { unfold has_category. apply existsb_exists. exists c.
    split; [exact I|apply String.eqb_refl]. }
  congruence.
Qed.

(** X17. initialize_default_categories makes every default category
    available, keeps category names unique, and is idempotent: running it
    again changes nothing. *)
Theorem initialize_default_categories_complete (db : @Store num) :
  let db' := initialize_default_categories db in
  (forall name, In name DEFAULT_CATEGORIES ->
     exists category,
       fst (get_category_by_name name db') = inr (Some category)
       /\ c_name category = name)
  /\ (NoDup (map c_name (categories db)) ->
      NoDup (map c_name (categories db')))
  /\ initialize_default_categories db' = db'.
Proof.
  intros db'. subst db'. unfold initialize_default_categories.
  generalize DEFAULT_CATEGORIES. intros names. split; [|split].
  - intros name I. rewrite get_category_by_name_eq. simpl.
    pose proof (initialize_covers names db name I) as H.
    apply found_category_has in H. unfold found_category in H.
    destruct (filter _ (categories (initialize_categories names db)))
      as [|c l] eqn:F; [simpl in H; now destruct H|].
    exists c. split; [reflexivity|].
    assert (X : In c (filter (fun c0 => String.eqb (c_name c0) name)
                        (categories (initialize_categories names db))))
      by (rewrite F; now left).
    apply filter_In in X as [_ X]. now apply String.eqb_eq in X.
  - revert db. induction names as [|n names IH]; intros db H; [exact H|].
    rewrite initialize_step. apply IH. now apply ensure_category_names.
  - apply initialize_all_present. intros n I. now apply initialize_covers.
Qed.

(** *** set_budget *)

Lemma first_of_snoc {A : Type} (p : A -> bool) (a : A) (l : list A) :
  query_first (filter p l) = None -> p a = true ->
  query_first (filter p (l ++ [a])) = Some a.
Proof.
  intros Hq Hp. rewrite filter_app. simpl. rewrite Hp.
  destruct (filter p l); [reflexivity|discriminate].
Qed.

Lemma first_of_rewrite {A : Type} (key : A -> Z) (p : A -> bool) (old a : A)
    (l : list A) :
  query_first (filter p l) = Some old ->
  p a = true -> key a = key old ->
  query_first (filter p (map (fun r => if key r =? key a then a else r) l))
  = Some a.
Proof.
  intros Hq Hp Hid. induction l as [|r l IH]; simpl in *; [discriminate|].
  destruct (p r) eqn:Pr.
  - simpl in Hq. injection Hq as ->. rewrite Hid, Z.eqb_refl, Hp. reflexivity.
  - destruct (key r =? key a); [now rewrite Hp|].
    rewrite Pr. now apply IH.
Qed.

Lemma query_first_In {A : Type} (p : A -> bool) (l : list A) (x : A) :
  query_first (filter p l) = Some x -> In x l /\ p x = true.
Proof.
  intros H. apply filter_In.
  destruct (filter p l) as [|y l']; [discriminate|].
  injection H as ->. now left.
Qed.

Lemma query_first_none {A : Type} (p : A -> bool) (l : list A) (x : A) :
  query_first (filter p l) = None -> In x l -> p x = false.
Proof.
  intros H I. destruct (p x) eqn:P; [|reflexivity].
  assert (X : In x (filter p l)) by (apply filter_In; now split).
  destruct (filter p l); [contradiction|discriminate].
Qed.

Lemma set_budget_run (user_id : Z) (category_name : string) (amount : num)
    (month year : option Z) (now : datetime) (db : @Store num) :
  set_budget user_id category_name amount month year now db
  = match found_category category_name db with
    | None => (None, db)
    | Some category =>
        let m := fst (month_year month year now) in
        let y := snd (month_year month year now) in
        match found_budget db user_id (c_id category) m y with
        | Some existing =>
            let updated :=
              {| b_id := b_id existing; b_user_id := b_user_id existing;
                 b_category_id := b_category_id existing; b_amount := amount;
                 b_month := b_month existing; b_year := b_year existing |} in
            if admits db (UpdBudget updated) then
              (Some updated,
               with_budgets db
                 (map (fun r => if b_id r =? b_id updated then updated else r)
                    (budgets db)))
            else (None, db)
        | None =>
            let budget :=
              {| b_id := 0; b_user_id := user_id;
                 b_category_id := c_id category; b_amount := amount;
                 b_month := m; b_year := y |} in
            if admits db (InsBudget budget) then
              (Some budget,
               with_budgets db
                 (budgets db
                    ++ [set_budget_id budget (next_id (map b_id (budgets db)))]))
            else (None, db)
        end
    end.
Proof.
  unfold set_budget. rewrite get_category_by_name_eq.
  fold (found_category category_name db).
  destruct (found_category category_name db) as [category|]; [|reflexivity].
  destruct (month_year month year now) as [m y]. cbn [fst snd]. cbv zeta.
  unfold get_session', set_budget_body, work_bind, work_query. cbn [seen].
  destruct (found_budget db user_id (c_id category) m y) as [existing|];
    unfold work_add, work_ret; cbn [seen todo app flush_changes];
    match goal with |- context [admits db ?c] => destruct (admits db c) end;
    reflexivity.
Qed.

(** X18. set_budget fails, returning None with the store unchanged, for an
    unknown category and for an amount that is not positive (the CHECK on
    budgets), whether the budget exists already or not. *)
Theorem set_budget_rejects (user_id : Z) (category_name : string)
    (amount : num) (month year : option Z) (now : datetime)
    (db : @Store num) :
  found_category category_name db = None \/ ltb (of_Z 0) amount = false ->
  set_budget user_id category_name amount month year now db = (None, db).
Proof.
  intros H. rewrite set_budget_run.
  destruct (found_category category_name db) as [category|]; [|reflexivity].
  destruct H as [H|H]; [discriminate|]. cbv zeta.
  destruct (found_budget db user_id (c_id category) _ _); simpl;
    rewrite H; reflexivity.
Qed.

(** X19. What set_budget stores is what the alert check and the report
    read: after a successful call the budget found for the user, category,
    month and year has the given amount; an existing budget is overwritten
    in place (the table keeps its length), otherwise one row is added. *)
Theorem set_budget_then_lookup (user_id : Z) (category_name : string)
    (amount : num) (month year : option Z) (now : datetime)
    (db db' : @Store num) (budget : Budget) :
  set_budget user_id category_name amount month year now db
  = (Some budget, db') ->
  let m := fst (month_year month year now) in
  let y := snd (month_year month year now) in
  exists category row,
    found_category category_name db = Some category
    /\ found_budget db' user_id (c_id category) m y = Some row
    /\ b_amount row = amount
    /\ List.length (budgets db')
       = match found_budget db user_id (c_id category) m y with
         | Some _ => List.length (budgets db)
         | None => S (List.length (budgets db))
         end.
Proof.
  rewrite set_budget_run. intros H m y.
  destruct (found_category category_name db) as [category|]; [|discriminate].
  cbv zeta in H. fold m y in H. exists category.
  destruct (found_budget db user_id (c_id category) m y) as [existing|] eqn:F.
  - set (upd := {| b_id := b_id existing; b_user_id := b_user_id existing;
                   b_category_id := b_category_id existing;
                   b_amount := amount; b_month := b_month existing;
                   b_year := b_year existing |}) in *.
    destruct (admits db (UpdBudget upd)); [|discriminate].
    injection H as <- <-. exists upd. split; [reflexivity|].
    unfold found_budget in *. simpl budgets. split; [|split].
    + apply (first_of_rewrite b_id _ existing upd); [exact F| |reflexivity].
      exact (proj2 (query_first_In _ _ _ F)).
    + reflexivity.
    + apply length_map.
  - destruct (admits db (InsBudget _)); [|discriminate].
    injection H as <- <-.
    exists (set_budget_id
              {| b_id := 0; b_user_id := user_id;
                 b_category_id := c_id category; b_amount := amount;
                 b_month := m; b_year := y |}
              (next_id (map b_id (budgets db)))).
    split; [reflexivity|].
    unfold found_budget in *. simpl budgets. split; [|split].
    + apply first_of_snoc; [exact F|]. simpl. now rewrite !Z.eqb_refl.
    + reflexivity.
    + rewrite length_app. simpl. lia.
Qed.

(** *** create_group *)

Lemma found_user_spec (db : @Store num) (i : Z) (u : User) :
  found_user db i = Some u -> In u (users db) /\ u_id u = i.
Proof.
  unfold found_user. intros H. apply query_first_In in H as [I E].
  now apply Z.eqb_eq in E.
Qed.

Lemma found_members_ids (db : @Store num) (member_ids : list Z) :
  map u_id (found_members db member_ids)
  = filter (fun i => existsb (fun u => u_id u =? i) (users db)) member_ids.
Proof.
  unfold found_members. induction member_ids as [|i ids IH]; [reflexivity|].
  cbn [flat_map filter]. rewrite map_app, IH.
  destruct (found_user db i) as [u|] eqn:F.
  - destruct (found_user_spec db i u F) as [I E].
    assert (X : existsb (fun u0 => u_id u0 =? i) (users db) = true).
    { apply existsb_exists. exists u. split; [exact I|]. now apply Z.eqb_eq. }
    rewrite X. simpl. now rewrite E.
  - assert (X : existsb (fun u0 => u_id u0 =? i) (users db) = false).
    { destruct (existsb _ (users db)) eqn:X; [|reflexivity].
      apply existsb_exists in X as (u & I & E).
      unfold found_user in F.
      now rewrite (query_first_none _ _ u F I) in E. }
    now rewrite X.
Qed.

Lemma found_members_users (db : @Store num) (member_ids : list Z) (m : User) :
  In m (found_members db member_ids) -> In m (users db).
Proof.
  unfold found_members. intros I. apply in_flat_map in I as (i & _ & I).
  destruct (found_user db i) as [u|] eqn:F; [|contradiction].
  destruct I as [<-|[]]. now apply (found_user_spec db i).
Qed.

Lemma pair_eqb_eq (p q : Z * Z) : pair_eqb p q = true <-> p = q.
Proof.
  destruct p as [a b], q as [c d]. unfold pair_eqb. simpl.
  rewrite andb_true_iff, !Z.eqb_eq. split; [intros [-> ->]|intros E];
    [reflexivity|now injection E].
Qed.

Lemma fresh_pairs_ok (existing new : list (Z * Z)) :
  (forall p, In p new -> ~ In p existing) -> NoDup new ->
  fresh_pairs existing new = true.
Proof.
  revert existing. induction new as [|p new IH]; intros existing H Hnd;
    [reflexivity|].
  apply NoDup_cons_iff in Hnd as [Hp Hnew]. cbn [fresh_pairs].
  apply andb_true_iff. split.
  - apply negb_true_iff. destruct (existsb (pair_eqb p) existing) eqn:E;
      [|reflexivity].
    apply existsb_exists in E as (q & I & E). apply pair_eqb_eq in E.
    subst q. destruct (H p (or_introl eq_refl) I).
  - apply IH; [|exact Hnew]. intros q I [<-|J]; [contradiction|].
    apply (H q); [now right|exact J].
Qed.

Lemma create_group_run (name : string) (created_by : Z) (member_ids : list Z)
    (db : @Store num) :
  create_group name created_by member_ids db
  = let members := found_members db member_ids in
    let g := {| g_id := next_id (map g_id (groups db)); g_name := name;
                g_created_by := created_by |} in
    if fresh_pairs (user_group db) (member_rows (g_id g) members)
    then (Some g, with_group db g (member_rows (g_id g) members))
    else (None, db).
Proof.
  unfold create_group, get_session', work_bind, work_query, work_add,
    work_flush, work_ret. simpl.
  destruct (fresh_pairs _ _); reflexivity.
Qed.

(** X20. create_group keeps exactly the listed ids that have a user and
    silently drops the others: with distinct ids (ids that fit the 64-bit
    integers of the database) it succeeds, the group gets the next key, and
    its members, as add_shared_expense later reads them, are those users,
    each once, in whatever order the database returns them. *)
Theorem create_group_members (name : string) (created_by : Z)
    (member_ids : list Z) (db : @Store num) :
  int64 created_by ->
  Forall int64 member_ids ->
  NoDup member_ids ->
  NoDup (map u_id (users db)) ->
  (forall r, In r (user_group db) -> In (snd r) (map g_id (groups db))) ->
  exists group db',
    create_group name created_by member_ids db = (Some group, db')
    /\ g_id group = next_id (map g_id (groups db))
    /\ groups db' = groups db ++ [group]
    /\ Permutation (group_members db' (g_id group))
         (found_members db member_ids)
    /\ Permutation (map u_id (group_members db' (g_id group)))
         (filter (fun i => existsb (fun u => u_id u =? i) (users db))
            member_ids).
Proof.
  intros _ _ Hids Hu Hfk. rewrite create_group_run. cbv zeta.
  set (i := next_id (map g_id (groups db))).
  set (members := found_members db member_ids).
  cbn [g_id].
  assert (Hold : forall r, In r (user_group db) -> snd r <> i).
  { intros r I. apply Hfk in I. apply next_id_fresh in I. fold i in I. lia. }
  assert (Hm : NoDup (map u_id members)).
  { unfold members. rewrite found_members_ids. now apply NoDup_filter. }
  assert (F : fresh_pairs (user_group db) (member_rows i members) = true).
  { apply fresh_pairs_ok.
    - intros p I J. apply in_map_iff in I as (m & <- & _).
      now apply (Hold _ J).
    - unfold member_rows. clear - Hm.
      induction members as [|m l IH]; simpl in *; [constructor|].
      apply NoDup_cons_iff in Hm as [Hx Hl]. constructor; [|now apply IH].
      intros I. apply Hx. apply in_map_iff in I as (m' & E & I).
      injection E as E. rewrite <- E. now apply in_map. }
  rewrite F. eexists. eexists. split; [reflexivity|].
  split; [reflexivity|]. split; [reflexivity|].
  assert (G : Permutation
                (group_members
                   (with_group db
                      {| g_id := i; g_name := name;
                         g_created_by := created_by |}
                      (member_rows i members)) i) members).
  { unfold group_members. rewrite order_by_rearranges.
    simpl user_group. simpl users.
    rewrite flat_map_app.
    rewrite (flat_map_nil _ (user_group db)).
    2:{ intros r I. apply Hold in I. apply Z.eqb_neq in I. now rewrite I. }
    simpl.
    assert (Hin : forall m, In m members -> In m (users db))
      by (intros m; apply found_members_users).
    clear F Hm. induction members as [|m l IH]; [reflexivity|].
    cbn [member_rows map flat_map snd fst]. rewrite Z.eqb_refl.
    rewrite (filter_ext (fun u => u_id u =? u_id m)
               (fun u => u_id m =? u_id u))
      by (intros u; apply Z.eqb_sym).
    rewrite (single_user (users db) m Hu) by (apply Hin; now left).
    simpl. constructor. apply IH. intros m' I. apply Hin. now right. }
  cbn [g_id]. split; [exact G|].
  rewrite <- found_members_ids. now apply Permutation_map.
Qed.

End Accounts.

Section CustomSplits.

Context {num : Type} {NUM : Number num}.

Variables (user_id group_id : Z) (category_name : string) (amount : num)
  (now : datetime) (custom_splits : option (list (Z * num))).

Lemma flush_splits_rejects (l : list (@ExpenseSplit num)) (db : Store) :
  (exists s, In s l /\ leb (of_Z 0) (s_amount s) = false) ->
  flush_writes (map InsSplit l) db = inl IntegrityError.
Proof.
  revert db. induction l as [|s l IH]; intros db (x & I & H);
    [contradiction|].
  simpl. destruct (leb (of_Z 0) (s_amount s)) eqn:E; [|reflexivity].
  apply IH. exists x. split; [|exact H].
  destruct I as [->|I]; [congruence|exact I].
Qed.

(** X21. In custom mode the split rows follow the mapping and nothing
    else: when the lookups succeed, the amount is positive and no mapped
    amount is negative, the call stores one row per entry of the mapping,
    with the entry's user id and amount, flagged paid exactly for the
    payer's id; neither membership of the group nor the sum is looked at. *)
Theorem custom_split_follows_mapping (db : @Store num) (category : Category)
    (group : Group) :
  found_category category_name db = Some category ->
  found_group group_id db = Some group ->
  ltb (of_Z 0) amount = true ->
  (forall item, In item (truthy_dict custom_splits) ->
     leb (of_Z 0) (snd item) = true) ->
  exists expense rows db',
    add_shared_expense user_id group_id category_name amount now false
      custom_splits db = (Some expense, db')
    /\ e_amount expense = amount
    /\ expense_splits db' = expense_splits db ++ rows
    /\ map (fun r => (s_user_id r, s_amount r)) rows
       = truthy_dict custom_splits
    /\ (forall r, In r rows ->
          s_expense_id r = e_id expense
          /\ s_paid r = (s_user_id r =? user_id)).
Proof.
  intros Hc Hg Hpos Hitems.
  destruct (add_shared_expense_ok user_id group_id category_name amount now
              custom_splits false db category group Hc Hg Hpos)
    as (rows & F & E).
  - discriminate.
  - unfold planned_rows, custom_rows. rewrite forallb_forall.
    intros x I. apply in_map_iff in I as (item & <- & I). simpl.
    now apply Hitems.
  - eexists. exists rows. eexists. split; [exact E|].
    split; [reflexivity|]. split; [reflexivity|]. split.
    + pose proof (f_equal
                    (map (fun t : Z * Z * num * bool =>
                            (snd (fst (fst t)), snd (fst t)))) F) as G.
      rewrite !map_map in G. simpl in G. rewrite G.
      unfold planned_rows, custom_rows. rewrite map_map. simpl.
      rewrite <- (map_id (truthy_dict custom_splits)) at 2.
      apply map_ext. now intros [k x].
    + intros r I. destruct (split_fields_In _ _ r F I) as (s0 & I0 & Es).
      injection Es as E1 E2 _ E4. rewrite E1, E2, E4.
      unfold planned_rows, custom_rows in I0.
      apply in_map_iff in I0 as (item & <- & _). now split.
Qed.

(** X22. One negative amount in the mapping rejects the whole call: the
    expense, although already flushed, is rolled back with the splits, and
    the store is as before. *)
Theorem custom_split_negative_rejects (db : @Store num) (item : Z * num) :
  In item (truthy_dict custom_splits) ->
  leb (of_Z 0) (snd item) = false ->
  add_shared_expense user_id group_id category_name amount now false
    custom_splits db = (None, db).
Proof.
  intros Hin Hneg.
  destruct (add_shared_expense_cases user_id group_id category_name amount
              now custom_splits false db)
    as [E | (category & group & rows & Hc & Hg & Hpos & _ & _ & E)];
    [exact E|].
  exfalso. revert E.
  unfold add_shared_expense. rewrite get_category_by_name_eq.
  fold (found_category category_name db). rewrite Hc. unfold get_session.
  rewrite (body_run user_id group_id amount now custom_splits false category
             group db Hg), Hpos.
  simpl andb. cbv iota. unfold commit. cbn [pending view].
  rewrite flush_splits_rejects; [discriminate|].
  exists (new_split
            (e_id (inserted_expense user_id group_id amount now category db))
            (fst item) (snd item) user_id).
  split; [|exact Hneg].
  unfold planned_rows, custom_rows. apply in_map_iff. now exists item.
Qed.

End CustomSplits.

Section FirstSplit.

Local Open Scope Q_scope.

Lemma flat_map_ext_in {A B : Type} (f g : A -> list B) (l : list A) :
  (forall x, In x l -> f x = g x) -> flat_map f l = flat_map g l.
Proof.
  induction l as [|x l IH]; intros H; [reflexivity|]. simpl.
  rewrite (H x) by now left. f_equal. apply IH. intros y I. apply H. now right.
Qed.

Lemma rows_for_In {num : Type} (us : list User) (e : @Expense num)
    (l : list ExpenseSplit) (r : @row num) :
  In r (rows_for us e l) ->
  In (fst (fst r)) l /\ snd (fst r) = e
  /\ row_user_id r = s_user_id (fst (fst r)).
Proof.
  unfold rows_for. intros I. apply in_flat_map in I as (s0 & Is & I).
  destruct (s_expense_id s0 =? e_id e)%Z; [|contradiction].
  apply in_map_iff in I as (u & <- & Iu). apply filter_In in Iu as [_ Iu].
  apply Z.eqb_eq in Iu. simpl. unfold row_user_id. simpl. auto.
Qed.

Lemma Qsum_const {A : Type} (c : Q) (l : list A) :
  Qsum (fun _ => c) l == c * inject_Z (Z.of_nat (List.length l)).
Proof.
  induction l as [|x l IH]; simpl List.length; simpl Qsum; [ring|].
  rewrite IH, Nat2Z.inj_succ, <- Z.add_1_r, inject_Z_plus. ring.
Qed.

(** A constant summed over a list. *)
Lemma sum_left_const {A : Type} (f : A -> Q) (c : Q) (l : list A) :
  (forall x, In x l -> f x = c) ->
  sum_left (map f l) == c * inject_Z (Z.of_nat (List.length l)).
Proof.
  intros H. rewrite sum_left_Qsum, Qsum_map, <- Qsum_const.
  apply Qsum_ext. intros x I. now rewrite (H x I).
Qed.

Variables (user_id group_id : Z) (category_name : string) (amount : Q)
  (now : datetime) (custom_splits : option (list (Z * Q))).

(** X23. The first equal split of a group, end to end: after it the
    balance engine lists exactly the group's members, each owing the share
    amount / N; the payer, when a member, is credited the whole amount, so
    in exact arithmetic the payer's net is amount - amount / N and every
    other member's net is - amount / N. *)
Theorem first_equal_split_balances (db db' : @Store Q)
    (expense : @Expense Q) :
  referential db ->
  NoDup (map u_id (users db)) ->
  NoDup (user_group db) ->
  (forall e, In e (expenses db) -> e_group_id e <> Some group_id) ->
  add_shared_expense user_id group_id category_name amount now true
    custom_splits db = (Some expense, db') ->
  let members := group_members db group_id in
  let share := amount / inject_Z (Z.of_nat (List.length members)) in
  exists balances,
    get_group_balances group_id db' = (inr balances, db')
    /\ NoDup (map bal_user_id balances)
    /\ (forall uid, In uid (map bal_user_id balances)
                    <-> In uid (map u_id members))
    /\ (forall b, In b balances ->
          let credit := if (bal_user_id b =? user_id)%Z then amount else 0 in
          total_owed b == share
          /\ total_paid b == credit
          /\ net_balance b == credit - share).
Proof.
  intros Hfk Hu Hug Hfirst Hrun members share.
  destruct (add_shared_expense_cases user_id group_id category_name amount
              now custom_splits true db)
    as [E | (category & group & rows & _ & _ & _ & Hmem & F & E)];
    rewrite E in Hrun; [discriminate|].
  injection Hrun as <- <-.
  set (e := inserted_expense user_id group_id amount now category db).
  exists (group_balances (stored user_id group_id amount now category db rows)
            group_id).
  split; [reflexivity|].
  (* the rows the allocator stored *)
  assert (Hrows : forall r, In r rows ->
            s_expense_id r = e_id e /\ s_amount r = share
            /\ s_paid r = (s_user_id r =? user_id)%Z).
  { intros r I. destruct (split_fields_In _ _ r F I) as (s0 & I0 & Es).
    injection Es as E1 E2 E3 E4. rewrite E1, E2, E3, E4.
    unfold planned_rows, equal_rows in I0.
    apply in_map_iff in I0 as (m & <- & _). now repeat split. }
  assert (Hids : map s_user_id rows = map u_id members).
  { destruct (split_fields_proj _ _ F) as (_ & Fu & _ & _). rewrite Fu.
    unfold planned_rows, equal_rows. now rewrite map_map. }
  assert (Hold : forall e0, In e0 (expenses db) -> (e_id e0 < e_id e)%Z).
  { intros e0 I. apply (in_map e_id) in I. now apply next_id_fresh in I. }
  (* the joined rows of the group are the rows of the new expense *)
  assert (J : group_splits
                (stored user_id group_id amount now category db rows) group_id
              = rows_for (users db) e rows).
  { unfold group_splits. simpl expense_splits. simpl expenses. simpl users.
    rewrite flat_map_app. rewrite (flat_map_nil _ (expense_splits db)).
    - simpl. unfold rows_for. apply flat_map_ext_in. intros s0 I.
      destruct (Hrows s0 I) as (He & _ & _).
      rewrite He, Z.eqb_refl, filter_app.
      rewrite (filter_none _ (expenses db)).
      + simpl. fold e. rewrite !Z.eqb_refl. simpl. now rewrite app_nil_r.
      + intros e0 I0. apply andb_false_iff. left. apply Z.eqb_neq.
        specialize (Hold e0 I0). lia.
    - intros s0 I. rewrite filter_app, (filter_none _ (expenses db)).
      + assert (N : (s_expense_id s0 =? e_id e)%Z = false).
        { apply Z.eqb_neq. apply Hfk in I.
          apply in_map_iff in I as (e1 & <- & I1). specialize (Hold e1 I1).
          lia. }
        cbn [filter app]. fold e. now rewrite N.
      + intros e0 I0. apply andb_false_iff. right.
        destruct (option_Z_eqb (e_group_id e0) (Some group_id)) eqn:G;
          [|reflexivity].
        apply option_Z_eqb_eq in G. now destruct (Hfirst e0 I0). }
  assert (Hall : map (fun r : @row Q => fst (fst r))
                   (rows_for (users db) e rows) = rows).
  { apply rows_for_all. intros r I. destruct (Hrows r I) as (Hr & _ & _).
    split; [exact Hr|].
    assert (Im : In (s_user_id r) (map u_id members))
      by (rewrite <- Hids; now apply in_map).
    apply in_map_iff in Im as (m & Em & Im). exists m. rewrite <- Em.
    apply single_user; [exact Hu|].
    now apply (group_members_users db group_id). }
  assert (Hkeys : map row_user_id (rows_for (users db) e rows)
                  = map u_id members).
  { transitivity (map s_user_id rows); [|exact Hids].
    rewrite <- Hall at 2. rewrite map_map. apply map_ext_in.
    intros r I. now apply rows_for_In in I. }
  destruct (tally_fold (rows_for (users db) e rows)) as (Tnd & Tkeys & Tval).
  rewrite <- J in Tnd, Tkeys, Tval.
  rewrite group_balances_user_ids.
  split; [exact Tnd|]. split.
  { intros uid. split.
    - intros I. apply Tkeys in I as (r & Ir & Er). rewrite J in Ir.
      rewrite <- Hkeys. apply in_map_iff. exists r. now split.
    - intros I. apply Tkeys. rewrite <- Hkeys in I.
      apply in_map_iff in I as (r & Er & Ir). exists r. rewrite J.
      now split. }
  intros b I. apply group_balances_In in I as (b0 & I & ->).
  assert (Ik : In (bal_user_id b0) (map u_id members)).
  { assert (X : In (bal_user_id b0)
                  (map fst
                     (fold_left accumulate
                        (group_splits
                           (stored user_id group_id amount now category db
                              rows) group_id) []))).
    { apply in_map_iff. now exists (bal_user_id b0, b0). }
    apply Tkeys in X as (r & Ir & Er). rewrite J in Ir.
    rewrite <- Hkeys, <- Er. now apply in_map. }
  destruct (Tval _ _ I) as (_ & P & O). rewrite J in P, O.
  cbv zeta. simpl bal_user_id. simpl total_owed. simpl total_paid.
  simpl net_balance.
  set (k := bal_user_id b0) in *.
  assert (Cnt : List.length
                  (filter (fun r : @row Q => (row_user_id r =? k)%Z)
                     (rows_for (users db) e rows)) = 1%nat).
  { transitivity
      (List.length (filter (fun x => (x =? k)%Z)
                      (map row_user_id (rows_for (users db) e rows)))).
    { now rewrite filter_map_comm, length_map. }
    rewrite Hkeys, count_key_NoDup by now apply group_members_NoDup.
    assert (X : existsb (fun x => (x =? k)%Z) (map u_id members) = true).
    { apply existsb_exists. exists k. split; [exact Ik|apply Z.eqb_refl]. }
    now rewrite X. }
  assert (Ho : total_owed b0 == share).
  { rewrite O. unfold spec_total_owed.
    rewrite (sum_left_const _ share); unfold row in *;
      [rewrite Cnt; simpl; ring|].
    intros r Ir. apply filter_In in Ir as [Ir _].
    apply rows_for_In in Ir as (Ir & _ & _). now apply Hrows. }
  assert (Hp : total_paid b0 == if (k =? user_id)%Z then amount else 0).
  { rewrite P. unfold spec_total_paid.
    rewrite (sum_left_const _ amount).
    2:{ intros r Ir. apply filter_In in Ir as [Ir _].
        apply rows_for_In in Ir as (_ & -> & _). reflexivity. }
    rewrite (filter_ext_in
               (fun r : @row Q =>
                  ((row_user_id r =? k)%Z && s_paid (fst (fst r)))%bool)
               (fun r : @row Q =>
                  ((row_user_id r =? k)%Z && (k =? user_id)%Z)%bool)).
    2:{ intros r Ir. destruct (row_user_id r =? k)%Z eqn:K; [|reflexivity].
        apply Z.eqb_eq in K. simpl.
        apply rows_for_In in Ir as (Ir & _ & Eu).
        destruct (Hrows _ Ir) as (_ & _ & ->). now rewrite <- Eu, K. }
    destruct (k =? user_id)%Z.
    - rewrite (filter_ext _ (fun r : @row Q => (row_user_id r =? k)%Z))
        by (intros r; apply andb_true_r).
      unfold row in *. rewrite Cnt. simpl. ring.
    - rewrite (filter_none _ (rows_for (users db) e rows))
        by (intros r _; apply andb_false_r).
      simpl. ring. }
  split; [exact Ho|]. split; [exact Hp|].
  change (total_paid b0 - total_owed b0
          == (if (k =? user_id)%Z then amount else 0) - share).
  now rewrite Ho, Hp.
Qed.

End FirstSplit.

(** * Scenarios for the further properties *)

Lemma set_custom_alert_creates_witness :
  exists a db',
    set_custom_alert 2 None 20 true
      (@ledger float [] [] [general_alert 1 10 true true]) = (Some a, db')
    /\ alerts db'
       = [general_alert 1 10 true true;
          {| a_id := 2; a_user_id := 2; a_category_id := None;
             a_threshold_percentage := 20; a_is_active := true;
             a_email_notification := true |}].
Proof.
  destruct (set_custom_alert_creates 2 None 20 true
              (@ledger float [] [] [general_alert 1 10 true true]) None)
    as (a & db' & Hrun & Halerts & _).
  - intros c [<-|[]]. discriminate.
  - reflexivity.
  - intros a [<-|[]] [H _]. discriminate H.
  - lia.
  - exists a, db'. split; [exact Hrun|]. rewrite Halerts. reflexivity.
Defined.

Lemma set_custom_alert_rejects_witness :
  set_custom_alert 1 None 150 false
    (@ledger float [] [] [general_alert 1 10 false true])
  = (None, ledger [] [] [general_alert 1 10 false true]).
Proof. apply set_custom_alert_rejects. right. lia. Defined.

Lemma set_custom_alert_then_lookup_witness :
  exists category_id row,
    resolved_key None (@ledger float [] [] [general_alert 1 10 false true])
    = Some category_id
    /\ query_first
         (filter (alert_key_matches 1 category_id)
            [general_alert 1 25 true false]) = Some row
    /\ a_user_id row = 1
    /\ a_threshold_percentage row = 25
    /\ a_email_notification row = false
    /\ a_is_active row = true.
Proof.
  refine (set_custom_alert_then_lookup 1 None 25 false
            (@ledger float [] [] [general_alert 1 10 false true])
            (ledger [] [] [general_alert 1 25 true false])
            (general_alert 1 25 true false) _ _).
  - intros c [<-|[]]. discriminate.
  - reflexivity.
Defined.

Lemma set_custom_alert_idempotent_witness :
  snd (set_custom_alert 1 None 25 false
         (@ledger float [] [] [general_alert 1 25 true false]))
  = ledger [] [] [general_alert 1 25 true false].
Proof.
  refine (set_custom_alert_idempotent 1 None 25 false
            (@ledger float [] [] [general_alert 1 10 false true]) _).
  intros c [<-|[]]. discriminate.
Defined.

Lemma mail_only_when_asked_witness :
  true = true
  /\ exists a,
       In a [general_alert 1 10 true true]
       /\ alert_applies 1 1 a = true
       /\ a_email_notification a = true.
Proof.
  refine (mail_only_when_asked true
            (ledger [food_budget 100%float] [food_expense 120%float]
               [general_alert 1 10 true true]) 1 1 11 2026
            [WarnExceeded "Food"%string 120%float 100%float 20%float;
             MailExceeded "asha@example.org"%string "asha"%string
               "Food"%string 120%float 100%float 20%float]
            (MailExceeded "asha@example.org"%string "asha"%string
               "Food"%string 120%float 100%float 20%float) _ _ _).
  - reflexivity.
  - right. left. reflexivity.
  - reflexivity.
Defined.

Lemma get_group_balances_empty_witness :
  get_group_balances 2 ledger_equal = (inr [], ledger_equal).
Proof.
  apply get_group_balances_empty. intros e [<-|[]]. discriminate.
Defined.

Lemma equal_split_keeps_one_payer_witness :
  single_payer ledger_equal /\ referential ledger_equal.
Proof.
  refine (equal_split_keeps_one_payer 1 1 "Food"%string 90%float nov2026
            None (ledger [] [] []) ledger_equal (trip_expense 90%float)
            _ _ _ _ _ _).
  - intros e g [].
  - intros s0 [].
  - distinct.
  - distinct.
  - left. reflexivity.
  - reflexivity.
Defined.


(** Mail configured and due, budget 100, 95 spent: adding 20 goes through,
    with the exceeded mail. *)
Lemma add_expense_succeeds_witness :
  exists expense events db',
    add_expense true 1 "Food"%string 20%float None nov2026
      (ledger [food_budget 100%float] [food_expense 95%float]
         [general_alert 1 10 true true])
    = (Some (expense, events), db')
    /\ expenses db' = [food_expense 95%float] ++ [expense]
    /\ e_amount expense = 20%float.
Proof.
  refine (add_expense_succeeds true 1 "Food"%string 20%float None nov2026
            (ledger [food_budget 100%float] [food_expense 95%float]
               [general_alert 1 10 true true])
            food _ _ _ _).
  - reflexivity.
  - discriminate.
  - reflexivity.
  - intros b [<-|[]]. reflexivity.
Defined.

Lemma Q_positive_not_zero (x : Q) : ltb (of_Z 0) x = true -> is_zero x = false.
Proof.
  intros H. apply Q_ltb_spec in H.
  destruct (is_zero x) eqn:Z; [|reflexivity].
  apply Q_is_zero_spec in Z. rewrite Z in H. discriminate H.
Qed.

Lemma get_monthly_report_total_witness :
  exists report,
    get_monthly_report 1 None None nov2026
      (@ledger Q [food_budget (0 # 1)] [food_expense (95 # 1)] [])
    = (inr report,
       ledger [food_budget (0 # 1)] [food_expense (95 # 1)] [])
    /\ (rep_month report, rep_year report) = (11, 2026).
Proof.
  refine (get_monthly_report_total 1 None None nov2026
            (@ledger Q [food_budget (0 # 1)] [food_expense (95 # 1)] []) _).
  exact Q_positive_not_zero.
Defined.


Lemma create_user_rejects_taken_witness :
  create_user 10 false "asha"%string "new@example.org"%string
    (@ledger float [] [] [])
  = (None, ledger [] [] []).
Proof.
  refine (create_user_rejects_taken 10 false "asha"%string
            "new@example.org"%string (@ledger float [] [] []) asha _ _).
  - left. reflexivity.
  - left. reflexivity.
Defined.

Lemma create_user_adds_user_and_alert_witness :
  exists user db',
    create_user 10 false "dev"%string "dev@example.org"%string
      (@ledger float [] [] []) = (Some user, db')
    /\ users db' = [asha; bala; chitra; user]
    /\ alerts db' = [{| a_id := 1; a_user_id := 4; a_category_id := None;
                        a_threshold_percentage := 10; a_is_active := true;
                        a_email_notification := false |}].
Proof.
  destruct (create_user_adds_user_and_alert 10 false "dev"%string
              "dev@example.org"%string (@ledger float [] [] []))
    as (user & db' & Hrun & -> & Hu & Ha & _).
  - intros r [<-|[<-|[<-|[]]]]; split; discriminate.
  - lia.
  - eexists. exists db'. split; [exact Hrun|]. rewrite Hu, Ha. now split.
Defined.

Lemma created_user_keeps_one_general_alert_witness :
  List.length
    (alerts
       (snd (set_custom_alert 4 None 30 true
               (snd (create_user 10 false "dev"%string
                       "dev@example.org"%string (@ledger float [] [] []))))))
  = 1%nat.
Proof.
  refine (created_user_keeps_one_general_alert 10 false "dev"%string
            "dev@example.org"%string (@ledger float [] [] [])
            (snd (create_user 10 false "dev"%string "dev@example.org"%string
                    (@ledger float [] [] [])))
            {| u_id := 4; u_username := "dev"%string;
               u_email := "dev@example.org"%string |} 30 true _).
  reflexivity.
Defined.

Lemma set_budget_rejects_witness :
  set_budget 1 "Food"%string 0%float None None nov2026 ledger_month
  = (None, ledger_month).
Proof. apply set_budget_rejects. right. reflexivity. Defined.

Lemma set_budget_then_lookup_witness :
  exists category row,
    found_category "Food"%string ledger_month = Some category
    /\ found_budget
         (snd (set_budget 1 "Food"%string 250%float None None nov2026
                 ledger_month)) 1 (c_id category) 11 2026 = Some row
    /\ b_amount row = 250%float
    /\ List.length
         (budgets
            (snd (set_budget 1 "Food"%string 250%float None None nov2026
                    ledger_month)))
       = match found_budget ledger_month 1 (c_id category) 11 2026 with
         | Some _ => 1%nat
         | None => 2%nat
         end.
Proof.
  refine (set_budget_then_lookup 1 "Food"%string 250%float None None nov2026
            ledger_month
            (snd (set_budget 1 "Food"%string 250%float None None nov2026
                    ledger_month))
            {| b_id := 1; b_user_id := 1; b_category_id := 1;
               b_amount := 250%float; b_month := 11; b_year := 2026 |} _).
  reflexivity.
Defined.

Lemma create_group_members_witness :
  exists group db',
    create_group "Flat"%string 1 [3; 9; 1] (@ledger float [] [] [])
    = (Some group, db')
    /\ g_id group = 3
    /\ groups db' = [trip; nobody] ++ [group]
    /\ Permutation (group_members db' (g_id group)) [chitra; asha]
    /\ Permutation (map u_id (group_members db' (g_id group))) [3; 1].
Proof.
  refine (create_group_members "Flat"%string 1 [3; 9; 1]
            (@ledger float [] [] []) _ _ _ _ _).
  - unfold int64. lia.
  - repeat constructor; unfold int64; lia.
  - distinct.
  - distinct.
  - intros r [<-|[<-|[<-|[]]]]; left; reflexivity.
Defined.

(** The members of the new group come back by ascending id, not in the
    order they were listed. *)
Example create_group_members_order :
  group_members
    (snd (create_group "Flat"%string 1 [3; 9; 1] (@ledger float [] [] []))) 3
  = [asha; chitra].
Proof. reflexivity. Qed.

Lemma custom_split_follows_mapping_witness :
  exists expense rows db',
    add_shared_expense 1 1 "Food"%string 100%float nov2026 false
      (Some [(1, 50%float); (2, 30%float)]) (ledger [] [] [])
    = (Some expense, db')
    /\ e_amount expense = 100%float
    /\ expense_splits db' = [] ++ rows
    /\ map (fun r => (s_user_id r, s_amount r)) rows
       = [(1, 50%float); (2, 30%float)]
    /\ (forall r, In r rows ->
          s_expense_id r = e_id expense /\ s_paid r = (s_user_id r =? 1)).
Proof.
  refine (custom_split_follows_mapping 1 1 "Food"%string 100%float nov2026
            (Some [(1, 50%float); (2, 30%float)]) (ledger [] [] []) food trip
            _ _ _ _).
  - reflexivity.
  - reflexivity.
  - reflexivity.
  - intros item [<-|[<-|[]]]; reflexivity.
Defined.

Lemma custom_split_negative_rejects_witness :
  add_shared_expense 1 1 "Food"%string 100%float nov2026 false
    (Some [(1, 120%float); (2, (-20)%float)]) (ledger [] [] [])
  = (None, ledger [] [] []).
Proof.
  refine (custom_split_negative_rejects 1 1 "Food"%string 100%float nov2026
            (Some [(1, 120%float); (2, (-20)%float)]) (ledger [] [] [])
            (2, (-20)%float) _ _).
  - right. left. reflexivity.
  - reflexivity.
Defined.

Lemma first_equal_split_balances_witness :
  exists balances,
    get_group_balances 1 ledger_equal_Q = (inr balances, ledger_equal_Q)
    /\ NoDup (map bal_user_id balances)
    /\ (forall uid, In uid (map bal_user_id balances) <-> In uid [1; 2; 3])
    /\ (forall b, In b balances ->
          let credit := if bal_user_id b =? 1 then 90 # 1 else 0%Q in
          (total_owed b == (90 # 1) / inject_Z 3)%Q
          /\ (total_paid b == credit)%Q
          /\ (net_balance b == credit - (90 # 1) / inject_Z 3)%Q).
Proof.
  refine (first_equal_split_balances 1 1 "Food"%string (90 # 1) nov2026 None
            (ledger [] [] []) ledger_equal_Q (trip_expense (90 # 1))
            _ _ _ _ _).
  - intros s0 [].
  - distinct.
  - distinct.
  - intros e [].
  - reflexivity.
Defined.
